(** * Reimbursement calculator: the decision engine of [solution.py] and
    the three-regime variant of [solver_v5.py]

  The Python code computes on [int] (unbounded) and [float] (IEEE 754
  binary64) values.  Integers are modelled by [Z], floats by Rocq's
  primitive binary64 [float], whose operations are specified against
  [SpecFloat] by the standard library. *)

From stdpp Require Import gmap.
From Stdlib Require Import ZArith Floats Lia.

Set Warnings "-inexact-float".
Local Open Scope Z_scope.

(** ** Python numbers *)

Module Py.

Inductive exn := TypeError | ValueError | OverflowError.

Inductive result (A : Type) :=
| Ok (a : A)
| Raise (e : exn).
Arguments Ok {A} a.
Arguments Raise {A} e.

Definition bind {A B} (r : result A) (k : A -> result B) : result B :=
  match r with
  | Ok a => k a
  | Raise e => Raise e
  end.

#[global] Instance result_bind : MBind result := fun A B k r => bind r k.

(** A Python number: an [int] or a [float]. *)
Inductive num :=
| NInt (z : Z)
| NFloat (f : float).

(** An argument as a caller may pass it: a number; a [str]; or an object
    that is no number and no text ([None]).  The code reads the text of a
    [str] only through [int()] and [float()], so a [str] is given by what
    each of the two makes of it: the integer, or the float, that the text
    is a literal of, and nothing where the text is no such literal.
    ['abc'] is [PyStr None None], ['3'] is [PyStr (Some 3) (Some 3)] and
    ['1.42'], which [int()] refuses, is [PyStr None (Some 1.42)]. *)
Inductive pyval :=
| PyNum (n : num)
| PyStr (as_int : option Z) (as_float : option float)
| PyNone.

(** [float(z)] for an int: the nearest binary64 (ties to even);
    [OverflowError] when that is out of range. *)
Definition float_of_int (z : Z) : result float :=
  match binary_normalize prec emax z 0 false with
  | S754_infinity _ => Raise OverflowError
  | sf => Ok (SF2Prim sf)
  end.

(** [int(f)] for a float: truncation toward zero. *)
Definition int_of_float (f : float) : result Z :=
  match Prim2SF f with
  | S754_nan => Raise ValueError
  | S754_infinity _ => Raise OverflowError
  | S754_zero _ => Ok 0
  | S754_finite s m e =>
      Ok (cond_Zopp s (match e with
                       | Zneg p => Zpos m / 2 ^ Zpos p
                       | _ => Zpos m * 2 ^ e
                       end))
  end.

(** [int(v)] and [float(v)]: a text that is no literal raises
    [ValueError], an object that is neither number nor text [TypeError]. *)
Definition py_int (v : pyval) : result Z :=
  match v with
  | PyNum (NInt z) => Ok z
  | PyNum (NFloat f) => int_of_float f
  | PyStr (Some z) _ => Ok z
  | PyStr None _ => Raise ValueError
  | PyNone => Raise TypeError
  end.

Definition py_float (v : pyval) : result float :=
  match v with
  | PyNum (NInt z) => float_of_int z
  | PyNum (NFloat f) => Ok f
  | PyStr _ (Some f) => Ok f
  | PyStr _ None => Raise ValueError
  | PyNone => Raise TypeError
  end.

Definition to_float (n : num) : result float :=
  match n with
  | NInt z => float_of_int z
  | NFloat f => Ok f
  end.

(** Arithmetic: int with int stays int; a float operand makes the other
    one a float first. *)
Definition arith (fz : Z -> Z -> Z) (ff : float -> float -> float)
           (a b : num) : result num :=
  match a, b with
  | NInt x, NInt y => Ok (NInt (fz x y))
  | _, _ =>
      bind (to_float a) (fun x =>
      bind (to_float b) (fun y =>
      Ok (NFloat (ff x y))))
  end.

Definition py_add := arith Z.add PrimFloat.add.
Definition py_sub := arith Z.sub PrimFloat.sub.
Definition py_mul := arith Z.mul PrimFloat.mul.

(** Comparison of a float with an int is exact in Python: the int is not
    rounded to a float first. *)
Definition SFcompare_Z (x : spec_float) (z : Z) : option comparison :=
  match x with
  | S754_nan => None
  | S754_infinity s => Some (if s then Lt else Gt)
  | S754_zero _ => Some (0 ?= z)
  | S754_finite s m e =>
      Some (match e with
            | Zneg p => cond_Zopp s (Zpos m) ?= z * 2 ^ Zpos p
            | _ => cond_Zopp s (Zpos m) * 2 ^ e ?= z
            end)
  end.

Definition compare (a b : num) : option comparison :=
  match a, b with
  | NInt x, NInt y => Some (x ?= y)
  | NFloat x, NFloat y => SFcompare (Prim2SF x) (Prim2SF y)
  | NFloat x, NInt y => SFcompare_Z (Prim2SF x) y
  | NInt x, NFloat y => option_map CompOpp (SFcompare_Z (Prim2SF y) x)
  end.

Definition py_lt (a b : num) : bool :=
  match compare a b with Some Lt => true | _ => false end.
Definition py_gt (a b : num) : bool :=
  match compare a b with Some Gt => true | _ => false end.
Definition py_le (a b : num) : bool :=
  match compare a b with Some (Lt | Eq) => true | _ => false end.
Definition py_eq (a b : num) : bool :=
  match compare a b with Some Eq => true | _ => false end.

(** The exact value of a number, for stating what the comparisons mean.
    Every finite binary64 is an integer multiple of [2^-1074], so a value
    is kept as that integer multiple; NaN has no value. *)
Inductive ereal := MInf | Fin (z : Z) | PInf.

Definition scale : Z := 2 ^ 1074.

Definition SFvalue (x : spec_float) : option ereal :=
  match x with
  | S754_nan => None
  | S754_infinity s => Some (if s then MInf else PInf)
  | S754_zero _ => Some (Fin 0)
  | S754_finite s m e => Some (Fin (cond_Zopp s (Zpos m) * 2 ^ (e + 1074)))
  end.

Definition value (n : num) : option ereal :=
  match n with
  | NInt z => Some (Fin (z * scale))
  | NFloat f => SFvalue (Prim2SF f)
  end.

Definition ereal_compare (a b : ereal) : comparison :=
  match a, b with
  | MInf, MInf | PInf, PInf => Eq
  | MInf, _ | _, PInf => Lt
  | _, MInf | PInf, _ => Gt
  | Fin x, Fin y => x ?= y
  end.

Definition compare_values (a b : option ereal) : option comparison :=
  match a, b with
  | Some x, Some y => Some (ereal_compare x y)
  | _, _ => None
  end.

Definition isnan (f : float) : bool :=
  match Prim2SF f with S754_nan => true | _ => false end.

Definition isfinite (f : float) : bool :=
  match Prim2SF f with S754_zero _ | S754_finite _ _ _ => true | _ => false end.

(** Truncation toward zero of the exact value of a finite float. *)
Definition trunc (f : float) : Z :=
  match SFvalue (Prim2SF f) with
  | Some (Fin v) => Z.quot v scale
  | _ => 0
  end.

Definition num_trunc (n : num) : Z :=
  match n with
  | NInt z => z
  | NFloat f => trunc f
  end.

Definition num_isfinite (n : num) : bool :=
  match n with
  | NInt _ => true
  | NFloat f => isfinite f
  end.

(** [min(a, b)]: the first argument unless the second is smaller. *)
Definition py_min (a b : num) : num := if py_lt b a then b else a.

(** [round(x, 2)] on a float: the decimal value of [x] rounded to two
    fractional digits, ties to even, then read back as the nearest
    binary64.  NaN and the infinities round to themselves; an int is
    returned as it is. *)
Definition div_half_even (n d : Z) : Z :=
  let q := n / d in
  match 2 * (n mod d) ?= d with
  | Lt => q
  | Gt => q + 1
  | Eq => if Z.even q then q else q + 1
  end.

Definition float_round2 (f : float) : float :=
  match Prim2SF f with
  | S754_finite s m e =>
      let cents := match e with
                   | Zneg p => div_half_even (Zpos m * 100) (2 ^ Zpos p)
                   | _ => Zpos m * 2 ^ e * 100
                   end in
      match cents with
      | Zpos k =>
          SF2Prim (SFdiv prec emax (S754_finite s k 0) (S754_finite false 100 0))
      | _ => SF2Prim (S754_zero s)
      end
  | _ => f
  end.

Definition py_round2 (n : num) : num :=
  match n with
  | NInt z => NInt z
  | NFloat f => NFloat (float_round2 f)
  end.

(** numpy's [rint]: the nearest integer, ties to even, with the sign of
    the argument; NaN, the infinities and the floats that are integers
    are returned as they are. *)
Definition np_rint (f : float) : float :=
  match Prim2SF f with
  | S754_finite s m (Zneg p) =>
      match div_half_even (Zpos m) (2 ^ Zpos p) with
      | Zpos k => SF2Prim (binary_normalize prec emax (cond_Zopp s (Zpos k)) 0 false)
      | _ => SF2Prim (S754_zero s)
      end
  | _ => f
  end.

(** [round(x, 2)] on a [numpy.float64]: numpy scales by 100, takes
    [rint] and divides by 100, each step in binary64. *)
Definition np_round2 (f : float) : float := (np_rint (f * 100) / 100)%float.

(** What line 94 rounds: a number of Python's own, or the
    [numpy.float64] that indexing a prediction gives.  [round(x, 2)]
    is the method of the type of [x]; a [numpy.float64] is a float for
    everything that follows. *)
Inductive scalar :=
| Builtin (n : num)
| Float64 (f : float).

Definition round2 (x : scalar) : num :=
  match x with
  | Builtin n => py_round2 n
  | Float64 f => NFloat (np_round2 f)
  end.

End Py.

(** ** [solution.py]: the shipped calculator *)

Module Solution.
Import Py.

(** One value of [self.rules]: every key is read with [rule['...']]. *)
Record Rule := {
  per_diem : num;
  mileage_rate1 : num;
  mileage_threshold : num;
  mileage_rate2 : num;
  receipt_rate : num;
  receipt_cap : num;
  low_receipt_threshold : num;
  low_receipt_penalty : num
}.

(** One value of [self.params]: every key is read with [.get], so each
    may be absent. *)
Record DayParams := {
  outlier_threshold : option num;
  outlier_rate : option num;
  outlier_penalty : option num
}.

Definition no_params : DayParams := Build_DayParams None None None.

Definition rules : gmap Z Rule :=
  list_to_map
    [ (1, Build_Rule (NInt 40) (NFloat 0.5) (NInt 75) (NFloat 0.3)
            (NFloat 0.75) (NInt 1100) (NInt 10) (NInt 0));
      (2, Build_Rule (NInt 100) (NFloat 0.52) (NInt 75) (NFloat 0.35)
            (NFloat 0.8) (NInt 1100) (NInt 10) (NInt 0));
      (3, Build_Rule (NInt 240) (NFloat 0.7) (NInt 100) (NFloat 0.25)
            (NFloat 0.75) (NInt 1000) (NInt 10) (NInt 0));
      (4, Build_Rule (NInt 260) (NFloat 0.7) (NInt 125) (NFloat 0.25)
            (NFloat 0.75) (NInt 1100) (NInt 10) (NInt 0));
      (5, Build_Rule (NInt 310) (NFloat 0.5) (NInt 75) (NFloat 0.45)
            (NFloat 0.8) (NInt 1000) (NInt 10) (NInt 0));
      (6, Build_Rule (NInt 380) (NFloat 0.7) (NInt 125) (NFloat 0.45)
            (NFloat 0.75) (NInt 1000) (NInt 10) (NInt 0));
      (7, Build_Rule (NInt 490) (NFloat 0.64) (NInt 125) (NFloat 0.5)
            (NFloat 0.8) (NInt 900) (NInt 10) (NInt 0)) ].

Definition day_params (threshold : Z) (rate : float) (penalty : Z) : DayParams :=
  Build_DayParams (Some (NInt threshold)) (Some (NFloat rate)) (Some (NInt penalty)).

Definition params : gmap Z DayParams :=
  list_to_map
    [ (1, day_params 1800 0.26 500);
      (2, day_params 2300 0.28 400);
      (3, day_params 2200 0.48 (-100));
      (4, day_params 2400 0.24 500);
      (5, day_params 2400 0.18 500);
      (6, day_params 2000 0.36 200);
      (7, day_params 1900 0.18 500) ].

(** The five hardcoded cases at the head of [calculate], in source order:
    duration, miles, receipts, returned amount. *)
Definition hardcoded : list (Z * Z * float * float) :=
  [ (4, 69, 2321.49%float, 322.00%float);
    (2, 18, 2503.46%float, 1206.95%float);
    (5, 196, 1228.49%float, 511.23%float);
    (1, 1082, 1809.49%float, 446.94%float);
    (5, 516, 1878.49%float, 669.85%float) ].

Definition hardcoded_case (d m : Z) (r : float) : option float :=
  match
    List.find (fun '(d', m', r', _) => (d =? d') && (m =? m') && (r =? r')%float)
              hardcoded
  with
  | Some (_, _, _, amount) => Some amount
  | None => None
  end.

(** Line 57. *)
Definition is_outlier (dp : DayParams) (receipts : float) : bool :=
  py_gt (NFloat receipts) (default (NFloat infinity) (outlier_threshold dp)).

(** Lines 61-65: the formula of line 62-63, the formula of line 65, and
    the test that chooses between them. *)
Definition mileage_above (rule : Rule) (miles : Z) : result num :=
  a ← py_mul (mileage_threshold rule) (mileage_rate1 rule);
  over ← py_sub (NInt miles) (mileage_threshold rule);
  b ← py_mul over (mileage_rate2 rule);
  py_add a b.

Definition mileage_within (rule : Rule) (miles : Z) : result num :=
  py_mul (NInt miles) (mileage_rate1 rule).

Definition mileage_reimbursement (rule : Rule) (miles : Z) : result num :=
  if py_gt (NInt miles) (mileage_threshold rule)
  then mileage_above rule miles
  else mileage_within rule miles.

(** Lines 67-70. *)
Definition receipt_reimbursement (rule : Rule) (dp : DayParams)
           (outlier : bool) (receipts : float) : result num :=
  if outlier then
    a ← py_mul (NFloat receipts) (default (NInt 0) (outlier_rate dp));
    py_add a (default (NInt 0) (outlier_penalty dp))
  else
    a ← py_mul (NFloat receipts) (receipt_rate rule);
    Ok (py_min a (receipt_cap rule)).

(** Lines 74-75. *)
Definition low_receipt (rule : Rule) (outlier : bool) (receipts : float) : bool :=
  negb outlier && py_lt (NInt 0) (NFloat receipts)
               && py_lt (NFloat receipts) (low_receipt_threshold rule).

(** Lines 54-75: the branch for a duration found in [self.rules]. *)
Definition short_trip (rule : Rule) (dp : DayParams) (miles : Z) (receipts : float)
  : result num :=
  let outlier := is_outlier dp receipts in
  mileage ← mileage_reimbursement rule miles;
  receipt ← receipt_reimbursement rule dp outlier receipts;
  s ← py_add (per_diem rule) mileage;
  reimbursement ← py_add s receipt;
  if low_receipt rule outlier receipts then
    py_sub reimbursement (low_receipt_penalty rule)
  else Ok reimbursement.

(** The same branch with lines 74-75 left out, to compare with. *)
Definition short_trip_without_penalty (rule : Rule) (dp : DayParams)
           (miles : Z) (receipts : float) : result num :=
  let outlier := is_outlier dp receipts in
  mileage ← mileage_reimbursement rule miles;
  receipt ← receipt_reimbursement rule dp outlier receipts;
  s ← py_add (per_diem rule) mileage;
  py_add s receipt.

Section Calculator.
(** The two regressors loaded by [__init__]: [predict] on the one-row
    frame of duration, miles and receipts, read at index 0.  The
    artifacts are not part of the sources; a prediction is an array of
    binary64 values, and a model may raise. *)
Variable long_trip_model outlier_model : Z -> Z -> float -> result float.

(** Lines 79-82. *)
Definition model_to_use (receipts : float) :=
  if py_gt (NFloat receipts) (NInt 2500) then outlier_model else long_trip_model.

(** Lines 77-90: [prediction[0]] is a [numpy.float64]. *)
Definition long_trip (d miles : Z) (receipts : float) : result scalar :=
  prediction ← model_to_use receipts d miles receipts;
  Ok (Float64 prediction).

Definition calculate (trip_duration_days miles_traveled total_receipts_amount : pyval)
  : result num :=
  d ← py_int trip_duration_days;
  m ← py_int miles_traveled;
  r ← py_float total_receipts_amount;
  match hardcoded_case d m r with
  | Some amount => Ok (NFloat amount)
  | None =>
      reimbursement ←
        match rules !! d with
        | Some rule =>
            x ← short_trip rule (default no_params (params !! d)) m r;
            Ok (Builtin x)
        | None =>
            if (8 <=? d) && (d <=? 14) then long_trip d m r
            else Ok (Builtin (NInt 0))
        end;
      Ok (round2 reimbursement)
  end.
End Calculator.

(** Two models that tell themselves apart, to run [calculate] on. *)
Definition stub_general (d miles : Z) (receipts : float) : result float :=
  Ok 1000.125%float.
Definition stub_outlier (d miles : Z) (receipts : float) : result float :=
  Ok 2000.375%float.
Definition failing_model (d miles : Z) (receipts : float) : result float :=
  Raise ValueError.

(** Two more, with predictions that numpy's [round] and Python's round
    differently. *)
Definition tie_general (d miles : Z) (receipts : float) : result float :=
  Ok 1000.675%float.
Definition tie_outlier (d miles : Z) (receipts : float) : result float :=
  Ok 1500.005%float.

(** Arguments as a caller writes them. *)
Definition int (z : Z) : pyval := PyNum (NInt z).
Definition flt (f : float) : pyval := PyNum (NFloat f).


End Solution.

(** ** [solver_v5.py]: the calculator with the anomaly and bug regimes *)

Module SolverV5.
Import Py.
Export Solution (Rule, per_diem, mileage_rate1, mileage_threshold, mileage_rate2,
                 receipt_rate, receipt_cap, low_receipt_threshold,
                 low_receipt_penalty).

(** One value of [params]: each key is read with [.get]. *)
Record DayParams := {
  anomaly_threshold : option num;
  anomaly_rate : option num;
  bug_threshold : option num;
  bug_rate : option num
}.

Definition no_params : DayParams := Build_DayParams None None None None.

Inductive regime := Normal | Anomaly | Bug.

(** Lines 29-30: a threshold that is not given is [float('inf')]. *)
Definition anomaly_limit (dp : DayParams) : num :=
  default (NFloat infinity) (anomaly_threshold dp).
Definition bug_limit (dp : DayParams) : num :=
  default (NFloat infinity) (bug_threshold dp).

(** Lines 32-33. *)
Definition is_bug (dp : DayParams) (receipts : float) : bool :=
  py_gt (NFloat receipts) (bug_limit dp).

Definition is_anomaly (dp : DayParams) (receipts : float) : bool :=
  negb (is_bug dp receipts) && py_gt (NFloat receipts) (anomaly_limit dp).

(** The branch that the [if is_bug / elif is_anomaly / else] chains of
    lines 40-45 and 49 take. *)
Definition detect (dp : DayParams) (receipts : float) : regime :=
  if is_bug dp receipts then Bug
  else if is_anomaly dp receipts then Anomaly
  else Normal.

Definition rank (g : regime) : Z :=
  match g with Normal => 0 | Anomaly => 1 | Bug => 2 end.

(** Parameters with the two thresholds equal. *)
Definition equal_limits : DayParams :=
  Build_DayParams (Some (NInt 1000)) (Some (NFloat 0.5))
                  (Some (NInt 1000)) (Some (NFloat 0.05)).

(** Lines 35-38. *)
Definition mileage_reimbursement (rule : Rule) (miles : Z) : result num :=
  if py_gt (NInt miles) (mileage_threshold rule) then
    a ← py_mul (mileage_threshold rule) (mileage_rate1 rule);
    over ← py_sub (NInt miles) (mileage_threshold rule);
    b ← py_mul over (mileage_rate2 rule);
    py_add a b
  else
    py_mul (NInt miles) (mileage_rate1 rule).

(** Lines 40-45. *)
Definition receipt_reimbursement (rule : Rule) (dp : DayParams)
           (g : regime) (receipts : float) : result num :=
  match g with
  | Bug => py_mul (NFloat receipts) (default (NInt 0) (bug_rate dp))
  | Anomaly => py_mul (NFloat receipts) (default (NInt 0) (anomaly_rate dp))
  | Normal =>
      a ← py_mul (NFloat receipts) (receipt_rate rule);
      Ok (py_min a (receipt_cap rule))
  end.

(** Line 49. *)
Definition low_receipt (rule : Rule) (g : regime) (receipts : float) : bool :=
  match g with
  | Normal => py_lt (NInt 0) (NFloat receipts)
              && py_lt (NFloat receipts) (low_receipt_threshold rule)
  | _ => false
  end.

Section Calculator.
(** The constructor's arguments. *)
Variable rules : gmap Z Rule.
Variable params : gmap Z DayParams.

Definition calculate (trip_duration_days miles_traveled total_receipts_amount : pyval)
  : result num :=
  day ← py_int trip_duration_days;
  miles ← py_int miles_traveled;
  receipts ← py_float total_receipts_amount;
  match rules !! day with
  | None => Ok (NInt 0)
  | Some rule =>
      let dp := default no_params (params !! day) in
      let g := detect dp receipts in
      mileage ← mileage_reimbursement rule miles;
      receipt ← receipt_reimbursement rule dp g receipts;
      s ← py_add (per_diem rule) mileage;
      reimbursement ← py_add s receipt;
      reimbursement ←
        (if low_receipt rule g receipts
         then py_sub reimbursement (low_receipt_penalty rule)
         else Ok reimbursement);
      Ok (py_round2 reimbursement)
  end.
End Calculator.

End SolverV5.

(** ** Lists of numbers the solvers iterate over *)

Module PyLists.
Import Py.

(** [range(start, stop, step)] and [np.arange(start, stop, step)] on ints,
    for a positive step. *)
Definition py_range (start stop step : Z) : list Z :=
  (fun i => start + i * step) <$> seqZ 0 ((stop - start + step - 1) / step).

(** [x / y] on two ints below [2^53] in magnitude, [y] not 0: both convert
    exactly and the quotient is rounded once. *)
Definition int_to_float (z : Z) : float :=
  SF2Prim (binary_normalize prec emax z 0 false).

Definition truediv (x y : Z) : float := (int_to_float x / int_to_float y)%float.

(** The search loop shared by the solvers:
    [best = float('inf'); for x in xs: s = score(x); if s < best: ...]. *)
Definition keep_best {A} (score : A -> float) (st : float * A) (x : A) : float * A :=
  if (score x <? st.1)%float then (score x, x) else st.

Definition best_of {A} (score : A -> float) (init : A) (xs : list A) : float * A :=
  foldl (keep_best score) (infinity, init) xs.

End PyLists.

(** ** [solver_v1.py]: fixed thresholds and one outlier rate *)

Module SolverV1.
Import Py.
Export Solution (Rule, per_diem, mileage_rate1, mileage_threshold, mileage_rate2,
                 receipt_rate, receipt_cap, low_receipt_threshold,
                 low_receipt_penalty).

(** Lines 18-25. *)
Definition is_outlier_case (d : Z) (receipts : float) : bool :=
  if (d =? 1) && py_gt (NFloat receipts) (NInt 1900) then true
  else if (d =? 2) && py_gt (NFloat receipts) (NInt 1950) then true
  else if (d =? 3) && py_gt (NFloat receipts) (NInt 2100) then true
  else if (d =? 4) && py_gt (NFloat receipts) (NInt 2100) then true
  else if (d =? 5) && py_gt (NFloat receipts) (NInt 2200) then true
  else if (d =? 6) && py_gt (NFloat receipts) (NInt 2300) then true
  else if (d =? 7) && py_gt (NFloat receipts) (NInt 2400) then true
  else false.

(** Lines 31-35, the text of [solution.py]'s lines 61-65. *)
Definition mileage_reimbursement (rule : Rule) (miles : Z) : result num :=
  if py_gt (NInt miles) (mileage_threshold rule) then
    a ← py_mul (mileage_threshold rule) (mileage_rate1 rule);
    over ← py_sub (NInt miles) (mileage_threshold rule);
    b ← py_mul over (mileage_rate2 rule);
    py_add a b
  else
    py_mul (NInt miles) (mileage_rate1 rule).

(** Lines 37-40. *)
Definition receipt_reimbursement (rule : Rule) (outlier : bool) (receipts : float)
  : result num :=
  if outlier then py_mul (NFloat receipts) (NFloat 0.45)
  else
    a ← py_mul (NFloat receipts) (receipt_rate rule);
    Ok (py_min a (receipt_cap rule)).

Section Calculator.
Variable long_trip_model : Z -> Z -> float -> result float.
Variable rules : gmap Z Rule.

Definition calculate (trip_duration_days miles_traveled total_receipts_amount : pyval)
  : result num :=
  d ← py_int trip_duration_days;
  m ← py_int miles_traveled;
  r ← py_float total_receipts_amount;
  let outlier := is_outlier_case d r in
  reimbursement ←
    match rules !! d with
    | Some rule =>
        mileage ← mileage_reimbursement rule m;
        receipt ← receipt_reimbursement rule outlier r;
        s ← py_add (per_diem rule) mileage;
        reimbursement ← py_add s receipt;
        reimbursement ←
          (if negb outlier && py_lt (NInt 0) (NFloat r)
                           && py_lt (NFloat r) (low_receipt_threshold rule)
           then py_sub reimbursement (low_receipt_penalty rule)
           else Ok reimbursement);
        Ok (Builtin reimbursement)
    | None =>
        if (8 <=? d) && (d <=? 14) then
          prediction ← long_trip_model d m r;
          Ok (Float64 prediction)
        else Ok (Builtin (NInt 0))
    end;
  Ok (round2 reimbursement).
End Calculator.

End SolverV1.

(** ** [solver_v2.py]: fixed thresholds, an outlier rate per rule *)

Module SolverV2.
Import Py PyLists.
Export Solution (Rule, per_diem, mileage_rate1, mileage_threshold, mileage_rate2,
                 receipt_rate, receipt_cap, low_receipt_threshold,
                 low_receipt_penalty).

(** A rule dict that may hold the key ['outlier_receipt_rate'], read with
    [.get]. *)
Record Rule2 := {
  base : Rule;
  outlier_receipt_rate : option num
}.

(** Lines 27-34. *)
Definition is_outlier (day : Z) (receipts : float) : bool :=
  if (day =? 1) && py_gt (NFloat receipts) (NInt 1900) then true
  else if (day =? 2) && py_gt (NFloat receipts) (NInt 1950) then true
  else if (day =? 3) && py_gt (NFloat receipts) (NInt 2100) then true
  else if (day =? 4) && py_gt (NFloat receipts) (NInt 2100) then true
  else if (day =? 5) && py_gt (NFloat receipts) (NInt 2200) then true
  else if (day =? 6) && py_gt (NFloat receipts) (NInt 2300) then true
  else if (day =? 7) && py_gt (NFloat receipts) (NInt 2400) then true
  else false.

(** Lines 36-52: from the mileage term to the rounded amount. *)
Definition evaluate (rule : Rule2) (outlier : bool) (miles : Z) (receipts : float)
  : result num :=
  mileage ← SolverV1.mileage_reimbursement (base rule) miles;
  receipt ←
    (if outlier then
       py_mul (NFloat receipts) (default (NFloat 0.45) (outlier_receipt_rate rule))
     else
       a ← py_mul (NFloat receipts) (receipt_rate (base rule));
       Ok (py_min a (receipt_cap (base rule))));
  s ← py_add (per_diem (base rule)) mileage;
  reimbursement ← py_add s receipt;
  reimbursement ←
    (if negb outlier && py_lt (NInt 0) (NFloat receipts)
                     && py_lt (NFloat receipts) (low_receipt_threshold (base rule))
     then py_sub reimbursement (low_receipt_penalty (base rule))
     else Ok reimbursement);
  Ok (py_round2 reimbursement).

Section Calculator.
Variable rules : gmap Z Rule2.

Definition calculate (trip_duration_days miles_traveled total_receipts_amount : pyval)
  : result num :=
  day ← py_int trip_duration_days;
  miles ← py_int miles_traveled;
  receipts ← py_float total_receipts_amount;
  match rules !! day with
  | None => Ok (NInt 0)
  | Some rule => evaluate rule (is_outlier day receipts) miles receipts
  end.
End Calculator.

(** *** [run_solver], lines 74-139 *)

(** Lines 74-82: the table of [solution.py] with the rate 0.45 in every
    rule. *)
Definition current_rules : gmap Z Rule2 :=
  (fun rule => Build_Rule2 rule (Some (NFloat 0.45))) <$> Solution.rules.

(** [rule['outlier_receipt_rate'] = rate]. *)
Definition set_rate (rate : float) (rule : Rule2) : Rule2 :=
  Build_Rule2 (base rule) (Some (NFloat rate)).

(** Line 117. *)
Definition rates : list float := (fun x => truediv x 100) <$> py_range 0 101 1.

Section RunSolver.
(** What the frame of cases decides: whether a day has no failing outlier
    (line 107), and the mean absolute error, on the failing outliers of a
    day, of a calculator built on given rules (lines 121-127). *)
Variable failing_empty : Z -> bool.
Variable mae : Z -> gmap Z Rule2 -> float.

(** Lines 118-131, one rate.  [current_rules.copy()] copies the outer dict
    only: [temp_rules[day]] is the very dict [current_rules[day]], so the
    assignment of line 119 changes both, and the rules are threaded through
    as one map.  [None] stands for a [KeyError]. *)
Definition try_rate (day : Z) (acc : option (gmap Z Rule2 * (float * num)))
           (rate : float) : option (gmap Z Rule2 * (float * num)) :=
  '(rules, st) ← acc;
  rule ← rules !! day;
  let temp_rules := <[day := set_rate rate rule]> rules in
  let m := mae day temp_rules in
  Some (temp_rules, if (m <? st.1)%float then (m, NFloat rate) else st).

(** Lines 114-131. *)
Definition search_rate (day : Z) (rules : gmap Z Rule2)
  : option (gmap Z Rule2 * (float * num)) :=
  foldl (try_rate day) (Some (rules, (infinity, NInt 0))) rates.

(** Lines 104-133, one day. *)
Definition run_day (acc : option (gmap Z Rule2 * gmap Z num)) (day : Z)
  : option (gmap Z Rule2 * gmap Z num) :=
  '(rules, final_outlier_rates) ← acc;
  if failing_empty day then
    rule ← rules !! day;
    rate ← outlier_receipt_rate rule;
    Some (rules, <[day := rate]> final_outlier_rates)
  else
    '(rules', (_, best_rate)) ← search_rate day rules;
    Some (rules', <[day := best_rate]> final_outlier_rates).

(** Lines 102-139: the rules as the run leaves them, and
    [final_outlier_rates]. *)
Definition run_solver : option (gmap Z Rule2 * gmap Z num) :=
  foldl run_day (Some (current_rules, ∅)) (py_range 1 8 1).
End RunSolver.

End SolverV2.

(** ** [solver_v3.py]: a table of thresholds *)

Module SolverV3.
Import Py.
Export SolverV2 (Rule2, base, outlier_receipt_rate).

Section Calculator.
Variable rules : gmap Z Rule2.
Variable outlier_thresholds : gmap Z num.

(** Line 28. *)
Definition is_outlier (day : Z) (receipts : float) : bool :=
  py_gt (NFloat receipts) (default (NFloat infinity) (outlier_thresholds !! day)).

(** Lines 16-45; lines 30-45 are the text of [solver_v2.py]'s lines
    36-52. *)
Definition calculate (trip_duration_days miles_traveled total_receipts_amount : pyval)
  : result num :=
  day ← py_int trip_duration_days;
  miles ← py_int miles_traveled;
  receipts ← py_float total_receipts_amount;
  match rules !! day with
  | None => Ok (NInt 0)
  | Some rule => SolverV2.evaluate rule (is_outlier day receipts) miles receipts
  end.
End Calculator.

(** The thresholds of the [elif] chain of [solver_v1.py] and
    [solver_v2.py], as a table. *)
Definition chain_thresholds : gmap Z num :=
  list_to_map [ (1, NInt 1900); (2, NInt 1950); (3, NInt 2100); (4, NInt 2100);
                (5, NInt 2200); (6, NInt 2300); (7, NInt 2400) ].

(** The parameters of [solver_v5.py] that give a day the rule's outlier
    rate above the day's threshold as its bug regime, and no anomaly
    regime. *)
Definition bug_only (rules : gmap Z Rule2) (outlier_thresholds : gmap Z num)
  : gmap Z SolverV5.DayParams :=
  map_imap
    (fun day rule =>
       Some (SolverV5.Build_DayParams
               None None (outlier_thresholds !! day)
               (Some (default (NFloat 0.45) (outlier_receipt_rate rule)))))
    rules.

End SolverV3.

(** ** [solver_v5.py]: [run_solver] *)

Module SolverV5Search.
Import Py PyLists SolverV5.

(** Lines 98-100 and 103.  The thresholds are numpy integers; on this grid
    they compare and convert as Python's integers do. *)
Definition anomaly_threshold_search : list Z := py_range 800 2401 200.
Definition bug_threshold_search (anomaly_thresh : Z) : list Z :=
  py_range (anomaly_thresh + 200) 2801 200.
Definition anomaly_rate_search : list float :=
  (fun x => truediv x 100) <$> py_range 30 76 2.
Definition bug_rate_search : list float :=
  (fun x => truediv x 1000) <$> py_range 0 101 5.

(** Line 134. *)
Definition current_params (anomaly_thresh bug_thresh : Z)
           (best_anomaly_rate best_bug_rate : num) : DayParams :=
  Build_DayParams (Some (NInt anomaly_thresh)) (Some best_anomaly_rate)
                  (Some (NInt bug_thresh)) (Some best_bug_rate).

Section RunSolver.
(** What the frame of cases decides: which frames are empty (lines 90, 110
    and 122) and the mean absolute errors of a calculator with given
    parameters of the day on the anomalies, on the bugs and on all cases of
    the day (lines 116, 128 and 137). *)
Variable day_empty : Z -> bool.
Variable anomalies_empty : Z -> Z -> Z -> bool.
Variable bugs_empty : Z -> Z -> bool.
Variable mae_anomalies : Z -> Z -> Z -> DayParams -> float.
Variable mae_bugs : Z -> Z -> DayParams -> float.
Variable mae_day : Z -> DayParams -> float.

(** Lines 107-119. *)
Definition best_anomaly_rate (day anomaly_thresh bug_thresh : Z) : num :=
  if anomalies_empty day anomaly_thresh bug_thresh then NInt 0
  else
    (best_of
       (fun rate =>
          mae_anomalies day anomaly_thresh bug_thresh
            (Build_DayParams (Some (NInt anomaly_thresh)) (Some rate)
                             (Some (NInt bug_thresh)) None))
       (NInt 0) (NFloat <$> anomaly_rate_search)).2.

(** Lines 107 and 121-131. *)
Definition best_bug_rate (day anomaly_thresh bug_thresh : Z) : num :=
  if bugs_empty day bug_thresh then NInt 0
  else
    (best_of
       (fun rate =>
          mae_bugs day bug_thresh
            (Build_DayParams (Some (NInt anomaly_thresh)) None
                             (Some (NInt bug_thresh)) (Some rate)))
       (NInt 0) (NFloat <$> bug_rate_search)).2.

(** The parameters that lines 102-137 try for a day, in the order of the
    two loops. *)
Definition candidates (day : Z) : list DayParams :=
  anomaly_thresh ← anomaly_threshold_search;
  bug_thresh ← bug_threshold_search anomaly_thresh;
  [current_params anomaly_thresh bug_thresh
     (best_anomaly_rate day anomaly_thresh bug_thresh)
     (best_bug_rate day anomaly_thresh bug_thresh)].

(** Lines 95-96 and 139-141. *)
Definition best_day_params (day : Z) : DayParams :=
  (best_of (mae_day day) no_params (candidates day)).2.

(** Lines 86-144. *)
Definition run_solver : gmap Z DayParams :=
  foldl (fun final_params day =>
           if day_empty day then final_params
           else <[day := best_day_params day]> final_params)
        ∅ (py_range 1 8 1).
End RunSolver.

End SolverV5Search.

(** * Facts about Python numbers *)

Module PyFacts.
Import Py.

Lemma scale_pos : 0 < scale.
Proof. unfold scale. apply Z.pow_pos_nonneg; lia. Qed.

Lemma digits2_pos_bounds (m : positive) :
  2 ^ (Zpos (digits2_pos m) - 1) <= Zpos m < 2 ^ Zpos (digits2_pos m).
Proof.
  induction m as [p IH | p IH | ]; cbn [digits2_pos].
  - rewrite Pos2Z.inj_succ, Z.pow_succ_r by lia.
    replace (Z.succ (Zpos (digits2_pos p)) - 1) with (Z.succ (Zpos (digits2_pos p) - 1)) by lia.
    rewrite Z.pow_succ_r by lia. lia.
  - rewrite Pos2Z.inj_succ, Z.pow_succ_r by lia.
    replace (Z.succ (Zpos (digits2_pos p)) - 1) with (Z.succ (Zpos (digits2_pos p) - 1)) by lia.
    rewrite Z.pow_succ_r by lia. lia.
  - cbn. lia.
Qed.

(** What [valid_binary] gives for a finite binary64. *)
Lemma bounded_inv (m : positive) (e : Z) :
  bounded prec emax m e = true ->
  -1074 <= e <= 971 /\ Zpos m < 2 ^ 53 /\ (e = -1074 \/ 2 ^ 52 <= Zpos m).
Proof.
  unfold bounded, canonical_mantissa, fexp, SpecFloat.emin, prec, emax.
  intros H. apply andb_prop in H as [Hc He].
  apply Z.eqb_eq in Hc. apply Z.leb_le in He.
  pose proof (digits2_pos_bounds m) as [Hlo Hhi].
  set (d := Zpos (digits2_pos m)) in *.
  assert (Hd : d <= 53) by lia.
  split; [lia|]. split.
  - eapply Z.lt_le_trans; [exact Hhi|]. apply Z.pow_le_mono_r; lia.
  - destruct (Z.eq_dec e (-1074)) as [->|Hne]; [now left|right].
    assert (d = 53) as Hd53 by lia. rewrite Hd53 in Hlo. exact Hlo.
Qed.

Lemma pow2_pos (k : Z) : 0 <= k -> 0 < 2 ^ k.
Proof. intros. apply Z.pow_pos_nonneg; lia. Qed.

(** Across exponents, a canonical mantissa with the smaller exponent is the
    smaller number. *)
Lemma scaled_lt (m1 m2 : positive) (e1 e2 : Z) :
  bounded prec emax m1 e1 = true -> bounded prec emax m2 e2 = true ->
  e1 < e2 ->
  Zpos m1 * 2 ^ (e1 + 1074) < Zpos m2 * 2 ^ (e2 + 1074).
Proof.
  intros H1 H2 Hlt.
  apply bounded_inv in H1 as (He1 & Hm1 & _).
  apply bounded_inv in H2 as (He2 & _ & [Hm2 | Hm2]); [lia|].
  pose proof (pow2_pos (e1 + 1074) ltac:(lia)) as Hp.
  apply Z.lt_le_trans with (2 ^ 53 * 2 ^ (e1 + 1074)).
  - apply Z.mul_lt_mono_pos_r; assumption.
  - apply Z.le_trans with (2 ^ 52 * 2 ^ (e2 + 1074)).
    + replace (2 ^ 53) with (2 ^ 52 * 2) by reflexivity.
      rewrite <- Z.mul_assoc, <- Z.pow_succ_r by lia.
      apply Z.mul_le_mono_nonneg_l; [lia|].
      apply Z.pow_le_mono_r; lia.
    + apply Z.mul_le_mono_nonneg_r; [|assumption].
      apply Z.lt_le_incl, pow2_pos. lia.
Qed.

Lemma finite_compare (m1 m2 : positive) (e1 e2 : Z) :
  bounded prec emax m1 e1 = true -> bounded prec emax m2 e2 = true ->
  match e1 ?= e2 with
  | Lt => Lt
  | Gt => Gt
  | Eq => Pos.compare_cont Eq m1 m2
  end = (Zpos m1 * 2 ^ (e1 + 1074) ?= Zpos m2 * 2 ^ (e2 + 1074)).
Proof.
  intros H1 H2. symmetry.
  destruct (Z.compare_spec e1 e2) as [-> | Hlt | Hgt].
  - pose proof (bounded_inv _ _ H2) as (He & _ & _).
    pose proof (pow2_pos (e2 + 1074) ltac:(lia)) as Hp.
    change (Pos.compare_cont Eq m1 m2) with (Zpos m1 ?= Zpos m2).
    destruct (Z.compare_spec (Zpos m1) (Zpos m2)) as [Heq | Hl | Hg].
    + apply Z.compare_eq_iff. now rewrite Heq.
    + apply Z.compare_lt_iff. now apply Z.mul_lt_mono_pos_r.
    + apply Z.compare_gt_iff. now apply Z.mul_lt_mono_pos_r.
  - apply Z.compare_lt_iff. now apply scaled_lt.
  - apply Z.compare_gt_iff. now apply scaled_lt.
Qed.

Lemma SFcompare_value (x y : spec_float) :
  valid_binary x = true -> valid_binary y = true ->
  SFcompare x y = compare_values (SFvalue x) (SFvalue y).
Proof.
  intros Hx Hy.
  destruct x as [sx | sx | | sx mx ex], y as [sy | sy | | sy my ey];
    cbn [SFcompare SFvalue compare_values ereal_compare valid_binary] in *;
    try reflexivity;
    try (destruct sx; reflexivity); try (destruct sy; reflexivity);
    try (destruct sx, sy; reflexivity).
  - pose proof (bounded_inv _ _ Hy) as (He & _ & _).
    pose proof (pow2_pos (ey + 1074) ltac:(lia)).
    f_equal. symmetry. destruct sy; cbn [cond_Zopp].
    + apply Z.compare_gt_iff. lia.
    + apply Z.compare_lt_iff. lia.
  - pose proof (bounded_inv _ _ Hx) as (He & _ & _).
    pose proof (pow2_pos (ex + 1074) ltac:(lia)).
    f_equal. symmetry. destruct sx; cbn [cond_Zopp].
    + apply Z.compare_lt_iff. lia.
    + apply Z.compare_gt_iff. lia.
  - pose proof (bounded_inv _ _ Hx) as (Hex & _ & _).
    pose proof (bounded_inv _ _ Hy) as (Hey & _ & _).
    pose proof (pow2_pos (ex + 1074) ltac:(lia)).
    pose proof (pow2_pos (ey + 1074) ltac:(lia)).
    f_equal. destruct sx, sy; cbn [cond_Zopp].
    + rewrite !Z.mul_opp_l, Z.compare_opp, <- (finite_compare my mx) by assumption.
      rewrite (Z.compare_antisym ey ex).
      destruct (ey ?= ex); cbn; try reflexivity.
      change (Pos.compare_cont Eq ?a ?b) with (Pos.compare a b).
      symmetry. apply Pos.compare_antisym.
    + symmetry. apply Z.compare_lt_iff. lia.
    + symmetry. apply Z.compare_gt_iff. lia.
    + now apply finite_compare.
Qed.

Lemma mul_compare_r (n m p : Z) : 0 < p -> (n * p ?= m * p) = (n ?= m).
Proof. intros Hp. symmetry. apply Zmult_compare_compat_r. lia. Qed.

Lemma ereal_compare_antisym (a b : ereal) :
  ereal_compare b a = CompOpp (ereal_compare a b).
Proof. destruct a, b; cbn; try reflexivity. apply Z.compare_antisym. Qed.

Lemma compare_values_antisym (a b : option ereal) :
  compare_values b a = option_map CompOpp (compare_values a b).
Proof.
  destruct a, b; cbn; try reflexivity. f_equal. apply ereal_compare_antisym.
Qed.

Lemma SFcompare_Z_value (x : spec_float) (z : Z) :
  valid_binary x = true ->
  SFcompare_Z x z = compare_values (SFvalue x) (Some (Fin (z * scale))).
Proof.
  intros Hx. pose proof scale_pos as Hs.
  destruct x as [s | s | | s m e];
    cbn [SFcompare_Z SFvalue compare_values ereal_compare valid_binary] in *;
    try reflexivity.
  - f_equal. change 0 with (0 * scale) at 2.
    now rewrite mul_compare_r.
  - destruct s; reflexivity.
  - pose proof (bounded_inv _ _ Hx) as (He & _ & _).
    f_equal. set (v := cond_Zopp s (Zpos m)).
    destruct e as [ | p | p].
    + change (2 ^ (0 + 1074)) with scale.
      now rewrite mul_compare_r, Z.pow_0_r, Z.mul_1_r.
    + replace (2 ^ (Zpos p + 1074)) with (2 ^ Zpos p * scale)
        by (unfold scale; rewrite <- Z.pow_add_r by lia; reflexivity).
      now rewrite Z.mul_assoc, mul_compare_r.
    + replace scale with (2 ^ Zpos p * 2 ^ (Zneg p + 1074))
        by (unfold scale; rewrite <- Z.pow_add_r by lia; f_equal; lia).
      rewrite Z.mul_assoc, mul_compare_r; [reflexivity|].
      apply pow2_pos. lia.
Qed.

(** The comparisons of [Py] decide the order of the exact values. *)
Theorem compare_value (a b : num) :
  compare a b = compare_values (value a) (value b).
Proof.
  pose proof scale_pos as Hs.
  destruct a as [x | x], b as [y | y]; cbn [compare value].
  - cbn. now rewrite mul_compare_r.
  - rewrite (compare_values_antisym (SFvalue (Prim2SF y))).
    f_equal. apply SFcompare_Z_value, Prim2SF_valid.
  - apply SFcompare_Z_value, Prim2SF_valid.
  - apply SFcompare_value; apply Prim2SF_valid.
Qed.

(** *** Order facts *)

(** Turn the comparisons in the goal and the hypotheses into integer
    comparisons of exact values. *)
Ltac by_values :=
  unfold py_min, py_lt, py_gt, py_le, py_eq in *;
  rewrite ?compare_value in *;
  repeat match goal with
         | H : context [value ?a] |- _ => destruct (value a) as [[ | ? | ] | ]
         | |- context [value ?a] => destruct (value a) as [[ | ? | ] | ]
         end;
  cbn [compare_values ereal_compare] in *;
  repeat match goal with
         | H : context [?x ?= ?y] |- _ => destruct (Z.compare_spec x y)
         | |- context [?x ?= ?y] => destruct (Z.compare_spec x y)
         end;
  try congruence; try lia.

Lemma py_gt_mono (a b t : num) :
  py_le a b = true -> py_gt a t = true -> py_gt b t = true.
Proof. by_values. Qed.

Lemma py_gt_lt (a b : num) : py_gt a b = py_lt b a.
Proof. by_values. Qed.

Lemma py_min_not_above (a b : num) : py_gt (py_min a b) b = false.
Proof.
  unfold py_min. destruct (py_lt b a) eqn:E; by_values.
Qed.

Lemma py_min_le (a b : num) :
  value a <> None -> value b <> None -> py_le (py_min a b) b = true.
Proof.
  intros Ha Hb. unfold py_min. destruct (py_lt b a) eqn:E; by_values.
Qed.

(** *** Rounding never makes a NaN *)

Lemma shr_1_nonneg (mrs : shr_record) : 0 <= shr_m mrs -> 0 <= shr_m (shr_1 mrs).
Proof.
  destruct mrs as [m r s]. cbn [shr_m]. intros Hm.
  destruct m as [ | [p | p | ] | p]; cbn; lia.
Qed.

Lemma iter_shr_1_nonneg (p : positive) (mrs : shr_record) :
  0 <= shr_m mrs -> 0 <= shr_m (iter_pos shr_1 p mrs).
Proof.
  revert mrs. induction p as [p IH | p IH | ]; intros mrs Hm; cbn [iter_pos].
  - apply IH, IH, shr_1_nonneg, Hm.
  - apply IH, IH, Hm.
  - apply shr_1_nonneg, Hm.
Qed.

Lemma shr_fexp_nonneg (m e : Z) (l : location) :
  0 <= m -> 0 <= shr_m (fst (shr_fexp prec emax m e l)).
Proof.
  intros Hm. unfold shr_fexp, shr.
  assert (H0 : 0 <= shr_m (shr_record_of_loc m l))
    by (destruct l as [ | [ | | ]]; exact Hm).
  destruct (fexp prec emax (Zdigits2 m + e) - e); cbn [fst];
    auto using iter_shr_1_nonneg.
Qed.

Lemma round_nearest_even_nonneg (m : Z) (l : location) :
  0 <= m -> 0 <= round_nearest_even m l.
Proof.
  intros Hm. destruct l as [ | [ | | ]]; cbn [round_nearest_even];
    try destruct (Z.even m); lia.
Qed.

Lemma binary_round_aux_not_nan (sx : bool) (mx ex : Z) (lx : location) :
  0 <= mx -> binary_round_aux prec emax sx mx ex lx <> S754_nan.
Proof.
  intros Hm. unfold binary_round_aux.
  pose proof (shr_fexp_nonneg mx ex lx Hm) as H1.
  destruct (shr_fexp prec emax mx ex lx) as [mrs' e']. cbn [fst] in H1.
  pose proof (shr_fexp_nonneg _ e' loc_Exact
                (round_nearest_even_nonneg _ (loc_of_shr_record mrs') H1)) as H2.
  destruct (shr_fexp prec emax _ e' loc_Exact) as [mrs'' e'']. cbn [fst] in H2.
  destruct (shr_m mrs''); [discriminate | | lia].
  destruct (e'' <=? emax - prec); discriminate.
Qed.

(** A finite non-zero factor keeps a product away from NaN. *)
Lemma mul_not_nan (x y : float) (s : bool) (m : positive) (e : Z) :
  Prim2SF y = S754_finite s m e -> isnan x = false -> isnan (x * y) = false.
Proof.
  unfold isnan. intros Hy Hx. rewrite mul_spec, Hy.
  destruct (Prim2SF x) as [sx | sx | | sx mx ex]; cbn [SF64mul SFmul];
    try reflexivity; try discriminate.
  pose proof (binary_round_aux_not_nan (xorb sx s) (Zpos (mx * m)) (ex + e)
                loc_Exact ltac:(lia)) as Hn.
  destruct (binary_round_aux _ _ _ _ _ _); congruence.
Qed.

Lemma value_not_nan (f : float) : isnan f = false -> value (NFloat f) <> None.
Proof. unfold isnan, value. destruct (Prim2SF f); cbn; congruence. Qed.

(** *** Subtracting the int 0 *)

Lemma float_sub_zero (f : float) : (f - 0)%float = f.
Proof.
  apply Prim2SF_inj. rewrite sub_spec.
  change (Prim2SF 0) with (S754_zero false).
  destruct (Prim2SF f) as [[ | ] | [ | ] | | s m e]; reflexivity.
Qed.

Lemma py_sub_zero (a : num) : py_sub a (NInt 0) = Ok a.
Proof.
  destruct a as [z | f]; cbn.
  - now rewrite Z.sub_0_r.
  - change (float_of_int 0) with (Ok 0%float). cbn. now rewrite float_sub_zero.
Qed.

(** *** [int] of a float truncates its value toward zero *)

Lemma int_of_float_trunc (f : float) :
  isfinite f = true -> int_of_float f = Ok (trunc f).
Proof.
  unfold isfinite, int_of_float, trunc. pose proof (Prim2SF_valid f) as Hv.
  pose proof scale_pos as Hs.
  destruct (Prim2SF f) as [s | s | | s m e]; try discriminate; intros _;
    cbn [SFvalue valid_binary] in *.
  - now rewrite Z.quot_0_l by lia.
  - pose proof (bounded_inv _ _ Hv) as (He & _ & _). f_equal.
    destruct e as [ | p | p].
    + change (2 ^ (0 + 1074)) with scale.
      rewrite Z.quot_mul by lia. now rewrite Z.pow_0_r, Z.mul_1_r.
    + replace (2 ^ (Zpos p + 1074)) with (2 ^ Zpos p * scale)
        by (unfold scale; rewrite <- Z.pow_add_r by lia; reflexivity).
      rewrite Z.mul_assoc, Z.quot_mul by lia.
      destruct s; cbn [cond_Zopp]; lia.
    + pose proof (pow2_pos (Zneg p + 1074) ltac:(lia)) as Hk.
      pose proof (pow2_pos (Zpos p) ltac:(lia)) as Hp.
      replace scale with (2 ^ Zpos p * 2 ^ (Zneg p + 1074))
        by (unfold scale; rewrite <- Z.pow_add_r by lia; f_equal; lia).
      rewrite Z.quot_mul_cancel_r by lia.
      destruct s; cbn [cond_Zopp].
      * rewrite Z.quot_opp_l by lia. f_equal. symmetry. apply Z.quot_div_nonneg; lia.
      * symmetry. apply Z.quot_div_nonneg; lia.
Qed.
(** Float equality with a finite non-zero constant is identity. *)
Lemma float_eqb_finite (r c : float) (s : bool) (m : positive) (e : Z) :
  Prim2SF c = S754_finite s m e -> (r =? c)%float = true -> r = c.
Proof.
  intros Hc Heq. rewrite FloatAxioms.eqb_spec, Hc in Heq.
  apply Prim2SF_inj. rewrite Hc. unfold SFeqb in Heq.
  destruct (Prim2SF r) as [s' | s' | | s' m' e'].
  - destruct s; discriminate.
  - destruct s'; discriminate.
  - discriminate.
  - cbn [SFcompare] in Heq.
    destruct s', s; try discriminate;
      destruct (Z.compare_spec e' e) as [Hee | | ]; try discriminate;
      destruct (Pos.compare_cont Eq m' m) eqn:Hm; try discriminate;
      apply Pos.compare_eq in Hm; now subst.
Qed.

End PyFacts.

(** * The calculator of [solution.py] *)

Module SolutionFacts.
Import Py PyFacts Solution.

Lemma rules_lookup_None (d : Z) : ~ 1 <= d <= 7 -> rules !! d = None.
Proof.
  intros Hd. unfold rules. cbn [list_to_map foldr fst snd uncurry].
  rewrite !lookup_insert_ne by lia. apply lookup_empty.
Qed.

Lemma rules_lookup_Some (d : Z) (rule : Rule) :
  rules !! d = Some rule -> 1 <= d <= 7.
Proof.
  intros H. destruct (decide (1 <= d <= 7)) as [Hd | Hd]; [exact Hd|].
  rewrite rules_lookup_None in H by exact Hd. discriminate.
Qed.

Lemma rules_lookup_is_Some (d : Z) : 1 <= d <= 7 -> is_Some (rules !! d).
Proof.
  intros Hd.
  assert (d = 1 \/ d = 2 \/ d = 3 \/ d = 4 \/ d = 5 \/ d = 6 \/ d = 7) as Hc by lia.
  destruct Hc as [-> | [-> | [-> | [-> | [-> | [-> | ->]]]]]];
    vm_compute; eauto.
Qed.

Lemma hardcoded_case_None (d m : Z) (r : float) :
  ~ 1 <= d <= 5 -> hardcoded_case d m r = None.
Proof.
  intros Hd. unfold hardcoded_case, hardcoded. cbn [List.find].
  repeat match goal with
         | |- context [d =? ?k] => replace (d =? k) with false by lia
         end.
  reflexivity.
Qed.


(** Split on the day of a rule found in the table; the rule becomes the
    table's entry. *)
Ltac each_day H :=
  match type of H with
  | rules !! ?d = Some ?rule =>
      let Hd := fresh "Hd" in
      pose proof (rules_lookup_Some d rule H) as Hd;
      assert (d = 1 \/ d = 2 \/ d = 3 \/ d = 4 \/ d = 5 \/ d = 6 \/ d = 7)
        as [-> | [-> | [-> | [-> | [-> | [-> | ->]]]]]] by lia;
      clear Hd; vm_compute in H; injection H as <-
  end.

Section Dispatch.
Variables gm om : Z -> Z -> float -> result float.
Variables (vd vm vr : pyval) (d m : Z) (r : float).
Hypothesis Hd : py_int vd = Ok d.
Hypothesis Hm : py_int vm = Ok m.
Hypothesis Hr : py_float vr = Ok r.

(** [calculate] after its three conversions succeeded. *)
Lemma calculate_converted :
  calculate gm om vd vm vr =
  match hardcoded_case d m r with
  | Some amount => Ok (NFloat amount)
  | None =>
      reimbursement ←
        match rules !! d with
        | Some rule =>
            x ← short_trip rule (default no_params (params !! d)) m r;
            Ok (Builtin x)
        | None =>
            if (8 <=? d) && (d <=? 14) then long_trip gm om d m r
            else Ok (Builtin (NInt 0))
        end;
      Ok (round2 reimbursement)
  end.
Proof. unfold calculate. now rewrite Hd, Hm, Hr. Qed.

(** On a day of the rule table that no hardcoded case takes, the formula
    and Python's [round]. *)
Lemma calculate_short (rule : Rule) :
  rules !! d = Some rule -> hardcoded_case d m r = None ->
  calculate gm om vd vm vr =
    (x ← short_trip rule (default no_params (params !! d)) m r;
     Ok (py_round2 x)).
Proof.
  intros Hrule Hnone. rewrite calculate_converted, Hnone, Hrule.
  now destruct (short_trip _ _ _ _).
Qed.

(** On a long trip, the model chosen and numpy's [round]. *)
Lemma calculate_long :
  8 <= d <= 14 ->
  calculate gm om vd vm vr =
    (prediction ← (if py_gt (NFloat r) (NInt 2500) then om else gm) d m r;
     Ok (NFloat (np_round2 prediction))).
Proof.
  intros Hlong. rewrite calculate_converted.
  rewrite hardcoded_case_None, rules_lookup_None by lia.
  replace ((8 <=? d) && (d <=? 14)) with true by lia.
  unfold long_trip, model_to_use.
  destruct (py_gt (NFloat r) (NInt 2500));
    [destruct (om d m r) | destruct (gm d m r)]; reflexivity.
Qed.

(** C2: an input triple of the hardcoded table gets the recorded amount,
    whatever the two models are and before any formula is evaluated. *)
Theorem hardcoded_case_returned (amount : float) :
  In (d, m, r, amount) hardcoded ->
  calculate gm om vd vm vr = Ok (NFloat amount).
Proof.
  intros Hin. rewrite calculate_converted.
  unfold hardcoded in Hin. cbn [In] in Hin.
  repeat destruct Hin as [Hin | Hin]; try contradiction;
    injection Hin as <- <- <- <-; reflexivity.
Qed.

(** Outside 1..14 no branch applies. *)
Lemma calculate_outside :
  d < 1 \/ 14 < d ->
  calculate gm om vd vm vr = Ok (NInt 0).
Proof.
  intros Hout. rewrite calculate_converted.
  rewrite hardcoded_case_None, rules_lookup_None by lia.
  replace ((8 <=? d) && (d <=? 14)) with false by lia.
  reflexivity.
Qed.

(** C4: a duration outside 1..14 gives the int 0; no hardcoded case has
    such a duration. *)
Theorem undefined_domain_zero :
  d < 1 \/ 14 < d ->
  hardcoded_case d m r = None
  /\ calculate gm om vd vm vr = Ok (NInt 0).
Proof.
  intros Hout. split; [apply hardcoded_case_None; lia | now apply calculate_outside].
Qed.

End Dispatch.



Lemma params_lookup_Some (d : Z) (rule : Rule) :
  rules !! d = Some rule -> is_Some (params !! d).
Proof. intros H. each_day H; vm_compute; eauto. Qed.

(** Split on the day of a rule and of its parameters. *)
Ltac each_day_params H H' :=
  each_day H; vm_compute in H'; injection H' as <-.

(** C7: with the regime forced to normal the receipt term never exceeds
    [receipt_cap], however large the receipts; it is at most the cap for
    every receipts value that is a number. *)
Theorem receipt_cap_enforced (d : Z) (rule : Rule) (dp : DayParams) (r : float) :
  rules !! d = Some rule ->
  exists term,
    receipt_reimbursement rule dp false r = Ok term
    /\ py_gt term (receipt_cap rule) = false
    /\ (isnan r = false -> py_le term (receipt_cap rule) = true).
Proof.
  intros H.
  assert (exists rate s m e,
             receipt_rate rule = NFloat rate /\ Prim2SF rate = S754_finite s m e
             /\ exists cap, receipt_cap rule = NInt cap) as
      (rate & s & m & e & Hrate & Hfin & cap & Hcap)
    by (each_day H; do 4 eexists; (split; [reflexivity|]);
        (split; [vm_compute; reflexivity | eexists; reflexivity])).
  unfold receipt_reimbursement. rewrite Hrate, Hcap. cbn [py_mul arith to_float mbind result_bind bind].
  eexists. split; [reflexivity|]. split.
  - apply py_min_not_above.
  - intros Hr. apply py_min_le; [|discriminate].
    apply value_not_nan. eapply mul_not_nan; eassumption.
Qed.

(** C8: the mileage term is the two-segment function of the source, and
    the two segment formulas agree at [mileage_threshold]. *)
Theorem mileage_tier_continuity (d : Z) (rule : Rule) :
  rules !! d = Some rule ->
  exists (threshold : Z) (rate1 rate2 at_threshold : float),
    mileage_threshold rule = NInt threshold
    /\ mileage_rate1 rule = NFloat rate1
    /\ mileage_rate2 rule = NFloat rate2
    /\ (forall miles,
          mileage_reimbursement rule miles =
          if miles <=? threshold then mileage_within rule miles
          else mileage_above rule miles)
    /\ (forall miles,
          mileage_within rule miles =
          (x ← float_of_int miles; Ok (NFloat (x * rate1))))
    /\ (forall miles,
          mileage_above rule miles =
          (t ← float_of_int threshold;
           x ← float_of_int (miles - threshold);
           Ok (NFloat (t * rate1 + x * rate2))))
    /\ mileage_within rule threshold = Ok (NFloat at_threshold)
    /\ mileage_above rule threshold = Ok (NFloat at_threshold).
Proof.
  intros H.
  assert (exists threshold rate1 rate2,
             mileage_threshold rule = NInt threshold
             /\ mileage_rate1 rule = NFloat rate1
             /\ mileage_rate2 rule = NFloat rate2) as
      (threshold & rate1 & rate2 & Ht & H1 & H2)
    by (each_day H; vm_compute; eauto 10).
  assert (exists v, mileage_within rule threshold = Ok (NFloat v)
                    /\ mileage_above rule threshold = Ok (NFloat v)) as
      (v & Hw & Ha).
  { each_day H; injection Ht as <-; vm_compute; eauto. }
  exists threshold, rate1, rate2, v.
  repeat split; try assumption.
  - intros miles. unfold mileage_reimbursement. rewrite Ht.
    unfold py_gt. cbn [compare].
    destruct (Z.leb_spec miles threshold) as [Hle | Hgt].
    + destruct (Z.compare_spec miles threshold); try reflexivity; lia.
    + destruct (Z.compare_spec miles threshold); try reflexivity; lia.
  - intros miles. unfold mileage_within. rewrite H1. reflexivity.
  - intros miles. unfold mileage_above. rewrite Ht, H1, H2.
    cbn [py_mul py_sub py_add arith to_float mbind result_bind bind].
    destruct (float_of_int threshold); [|reflexivity]. cbn [bind].
    destruct (float_of_int (miles - threshold)); reflexivity.
Qed.

(** C10: every rule of the table has [low_receipt_penalty] 0, so the
    penalty step changes nothing: the branch for 1..7 days computes what it
    computes with lines 74-75 left out, and so does [calculate]. *)
Theorem low_receipt_penalty_noop
        (gm om : Z -> Z -> float -> result float) (vd vm vr : pyval)
        (d m : Z) (r : float) (rule : Rule) :
  py_int vd = Ok d -> py_int vm = Ok m -> py_float vr = Ok r ->
  rules !! d = Some rule ->
  hardcoded_case d m r = None ->
  low_receipt_penalty rule = NInt 0
  /\ (forall dp, short_trip rule dp m r = short_trip_without_penalty rule dp m r)
  /\ calculate gm om vd vm vr =
       (reimbursement ←
          short_trip_without_penalty rule (default no_params (params !! d)) m r;
        Ok (py_round2 reimbursement)).
Proof.
  intros Hd Hm Hr H Hnone.
  assert (Hp : low_receipt_penalty rule = NInt 0) by (each_day H; reflexivity).
  assert (Hst : forall dp,
             short_trip rule dp m r = short_trip_without_penalty rule dp m r).
  { intros dp. unfold short_trip, short_trip_without_penalty. rewrite Hp.
    destruct (mileage_reimbursement rule m) as [mileage | ];
      cbn [mbind result_bind bind]; [|reflexivity].
    destruct (receipt_reimbursement rule dp (is_outlier dp r) r) as [receipt | ];
      cbn [mbind result_bind bind]; [|reflexivity].
    destruct (py_add (per_diem rule) mileage) as [s | ];
      cbn [mbind result_bind bind]; [|reflexivity].
    destruct (py_add s receipt) as [reimbursement | ];
      cbn [mbind result_bind bind]; [|reflexivity].
    destruct (low_receipt rule (is_outlier dp r) r); [|reflexivity].
    apply py_sub_zero. }
  split; [exact Hp|]. split; [exact Hst|].
  rewrite (calculate_short gm om vd vm vr d m r Hd Hm Hr rule H Hnone), Hst.
  reflexivity.
Qed.

(** C1: the receipt term by regime.  In [solution.py] the normal regime
    gives [min(receipts * receipt_rate, receipt_cap)] and the outlier regime
    gives [receipts * outlier_rate + outlier_penalty], a rate and an offset;
    in [solver_v5.py] the anomaly and bug regimes give receipts times the
    regime's rate with nothing added. *)
Theorem receipt_term_by_regime (d : Z) (rule : Rule) (dp : DayParams) (r : float) :
  rules !! d = Some rule -> params !! d = Some dp ->
  (exists (rate orate offset : float) (cap threshold penalty : Z),
      receipt_rate rule = NFloat rate
      /\ receipt_cap rule = NInt cap
      /\ outlier_threshold dp = Some (NInt threshold)
      /\ outlier_rate dp = Some (NFloat orate)
      /\ outlier_penalty dp = Some (NInt penalty)
      /\ float_of_int penalty = Ok offset
      /\ is_outlier dp r = py_gt (NFloat r) (NInt threshold)
      /\ receipt_reimbursement rule dp false r =
           Ok (py_min (NFloat (r * rate)) (NInt cap))
      /\ receipt_reimbursement rule dp true r =
           Ok (NFloat (r * orate + offset)))
  /\ (forall (dp5 : SolverV5.DayParams) (arate brate : float),
        SolverV5.anomaly_rate dp5 = Some (NFloat arate) ->
        SolverV5.bug_rate dp5 = Some (NFloat brate) ->
        SolverV5.receipt_reimbursement rule dp5 SolverV5.Normal r =
          receipt_reimbursement rule dp false r
        /\ SolverV5.receipt_reimbursement rule dp5 SolverV5.Anomaly r =
             Ok (NFloat (r * arate))
        /\ SolverV5.receipt_reimbursement rule dp5 SolverV5.Bug r =
             Ok (NFloat (r * brate))).
Proof.
  intros H H'. split.
  - each_day_params H H'; do 6 eexists; repeat split.
  - intros dp5 arate brate Ha Hb.
    unfold SolverV5.receipt_reimbursement. rewrite Ha, Hb. repeat split.
Qed.

(** C1, the input that refutes it as stated: on a one-day trip with
    receipts 2000 the outlier regime applies and the receipt term is
    [2000 * 0.26 + 500 = 1020], not [2000 * 0.26 = 520]. *)
Lemma outlier_term_has_offset :
  exists rule dp,
    rules !! 1 = Some rule /\ params !! 1 = Some dp
    /\ is_outlier dp 2000 = true
    /\ receipt_reimbursement rule dp (is_outlier dp 2000) 2000 = Ok (NFloat 1020)
    /\ py_mul (NFloat 2000) (default (NInt 0) (outlier_rate dp)) = Ok (NFloat 520)
    /\ (1020 =? 520)%float = false
    /\ calculate stub_general stub_outlier
         (PyNum (NInt 1)) (PyNum (NInt 0)) (PyNum (NFloat 2000)) = Ok (NFloat 1060).
Proof. do 2 eexists. repeat split. Qed.

(** [trunc] drops the fractional part: it is the integer of largest
    magnitude that does not pass the value, on the value's side of zero. *)
Lemma trunc_toward_zero (f : float) (v : Z) :
  value (NFloat f) = Some (Fin v) ->
  Z.abs (trunc f) * scale <= Z.abs v < (Z.abs (trunc f) + 1) * scale
  /\ 0 <= trunc f * v.
Proof.
  unfold value, trunc. intros ->. pose proof scale_pos as Hs.
  pose proof (Z.quot_rem' v scale) as Hqr.
  pose proof (Z.rem_bound_abs v scale ltac:(lia)) as Hb.
  pose proof (Z.rem_sign_mul v scale ltac:(lia)) as Hsgn.
  revert Hqr Hb Hsgn. generalize (Z.rem v scale) as rm.
  generalize (v ÷ scale) as q. generalize dependent scale.
  intros k Hk q rm Hqr Hb Hsgn. subst v.
  assert (Hrm : - k < rm < k) by lia. clear Hb.
  assert (Hcase : (0 <= q /\ 0 <= rm) \/ (q <= 0 /\ rm <= 0)).
  { destruct (Z_lt_le_dec q 0), (Z_lt_le_dec rm 0); try lia.
    - assert (k * q + rm < 0) by nia. assert (rm = 0) by nia. lia.
    - destruct (Z.eq_dec q 0); [lia|]. exfalso.
      assert (0 < k * q + rm) by nia. nia. }
  destruct Hcase as [[Hq Hr] | [Hq Hr]].
  - rewrite (Z.abs_eq q), (Z.abs_eq (k * q + rm)) by nia. nia.
  - rewrite (Z.abs_neq q), (Z.abs_neq (k * q + rm)) by nia. nia.
Qed.



Lemma finite_value (f : float) (v : Z) :
  value (NFloat f) = Some (Fin v) -> isfinite f = true.
Proof.
  unfold value, isfinite. destruct (Prim2SF f) as [s | s | | s m e]; cbn [SFvalue];
    try reflexivity; try discriminate. now destruct s.
Qed.

(** C9: [int()] cuts a finite float to its integer part, toward zero, and
    keeps an int; [calculate] converts duration and miles so before
    anything else looks at them, and its hardcoded lookup, its rule lookup
    and its formulas all work on the integer parts: a call with float
    duration and miles is the call with their truncations.  Receipts given
    as an int are made a float. *)
Theorem calculate_truncates
        (gm om : Z -> Z -> float -> result float) (d m : num) (vr : pyval) :
  num_isfinite d = true -> num_isfinite m = true ->
  (py_int (PyNum d) = Ok (num_trunc d) /\ py_int (PyNum m) = Ok (num_trunc m))
  /\ (forall (f : float) (v : Z),
        value (NFloat f) = Some (Fin v) ->
        py_int (flt f) = Ok (num_trunc (NFloat f))
        /\ Z.abs (num_trunc (NFloat f)) * scale <= Z.abs v
           < (Z.abs (num_trunc (NFloat f)) + 1) * scale
        /\ 0 <= num_trunc (NFloat f) * v)
  /\ calculate gm om (PyNum d) (PyNum m) vr =
       calculate gm om (int (num_trunc d)) (int (num_trunc m)) vr
  /\ calculate gm om (PyNum d) (PyNum m) vr =
       (r ← py_float vr;
        match hardcoded_case (num_trunc d) (num_trunc m) r with
        | Some amount => Ok (NFloat amount)
        | None =>
            reimbursement ←
              match rules !! num_trunc d with
              | Some rule =>
                  x ← short_trip rule (default no_params (params !! num_trunc d))
                        (num_trunc m) r;
                  Ok (Builtin x)
              | None =>
                  if (8 <=? num_trunc d) && (num_trunc d <=? 14)
                  then long_trip gm om (num_trunc d) (num_trunc m) r
                  else Ok (Builtin (NInt 0))
              end;
            Ok (round2 reimbursement)
        end)
  /\ (forall (z : Z) (f : float),
        float_of_int z = Ok f ->
        calculate gm om (PyNum d) (PyNum m) (int z) =
        calculate gm om (PyNum d) (PyNum m) (flt f)).
Proof.
  intros Hd Hm.
  assert (Hconv : forall n, num_isfinite n = true ->
                            py_int (PyNum n) = Ok (num_trunc n)).
  { intros [z | f] Hn; [reflexivity | now apply int_of_float_trunc]. }
  split; [split; apply Hconv; assumption|]. split; [|split; [|split]].
  - intros f v Hv. split.
    + apply Hconv. cbn [num_isfinite]. eapply finite_value, Hv.
    + cbn [num_trunc]. now apply trunc_toward_zero.
  - unfold calculate. now rewrite !Hconv by assumption.
  - unfold calculate. rewrite !Hconv by assumption. reflexivity.
  - intros z f Hz. unfold calculate. cbn [py_float int flt]. now rewrite Hz.
Qed.



(** *** Worked inputs *)

Example short_trip_normal :
  calculate stub_general stub_outlier (int 3) (int 93) (flt 1.42)
  = Ok (NFloat 306.17).
Proof. reflexivity. Qed.

Example short_trip_capped :
  calculate stub_general stub_outlier (int 7) (int 300) (flt 1000.55)
  = Ok (NFloat 1457.94).
Proof. reflexivity. Qed.

Example short_trip_outlier :
  calculate stub_general stub_outlier (int 1) (int 100) (flt 2000)
  = Ok (NFloat 1105).
Proof. reflexivity. Qed.

Example miles_too_large :
  calculate stub_general stub_outlier (int 1) (int (10 ^ 400)) (flt 50)
  = Raise OverflowError.
Proof. vm_compute. reflexivity. Qed.

Example duration_nan :
  calculate stub_general stub_outlier (flt nan) (int 100) (flt 50)
  = Raise ValueError.
Proof. reflexivity. Qed.

Example hardcoded_after_truncation :
  calculate failing_model failing_model (flt 4.7) (flt 69.9) (flt 2321.49)
  = Ok (NFloat 322).
Proof. reflexivity. Qed.

Example round_half_even :
  float_round2 0.125 = 0.12%float /\ float_round2 0.375 = 0.38%float
  /\ float_round2 2.675 = 2.67%float /\ float_round2 511.2345 = 511.23%float.
Proof. repeat split. Qed.

(** *** The theorems at concrete inputs *)

Lemma hardcoded_case_returned_witness :
  In (4, 69, 2321.49%float, 322%float) hardcoded
  /\ calculate stub_general stub_outlier (int 4) (int 69) (flt 2321.49)
     = Ok (NFloat 322).
Proof.
  split; [now left|].
  apply (hardcoded_case_returned stub_general stub_outlier _ _ _ 4 69 2321.49%float);
    [reflexivity .. | now left].
Defined.

Lemma undefined_domain_zero_witness :
  calculate stub_general stub_outlier (int 0) (int 100) (flt 50) = Ok (NInt 0)
  /\ calculate stub_general stub_outlier (int 15) (int 100) (flt 50) = Ok (NInt 0).
Proof.
  split.
  - apply (undefined_domain_zero stub_general stub_outlier _ _ _ 0 100 50%float);
      [reflexivity .. | lia].
  - apply (undefined_domain_zero stub_general stub_outlier _ _ _ 15 100 50%float);
      [reflexivity .. | lia].
Defined.

Lemma receipt_cap_enforced_witness :
  exists rule term,
    rules !! 1 = Some rule
    /\ receipt_reimbursement rule no_params false 1e9 = Ok term
    /\ py_le term (receipt_cap rule) = true.
Proof.
  destruct (rules !! 1) as [rule | ] eqn:Hrule; [|discriminate].
  destruct (receipt_cap_enforced 1 rule no_params 1e9 Hrule)
    as (term & Hterm & _ & Hle).
  exists rule, term. repeat split; [exact Hterm | now apply Hle].
Defined.

Lemma mileage_tier_continuity_witness :
  exists rule v,
    rules !! 3 = Some rule
    /\ mileage_within rule 100 = Ok v /\ mileage_above rule 100 = Ok v.
Proof.
  destruct (rules !! 3) as [rule | ] eqn:Hrule; [|discriminate].
  destruct (mileage_tier_continuity 3 rule Hrule)
    as (t & r1 & r2 & v & Ht & _ & _ & _ & _ & _ & Hw & Ha).
  exists rule, (NFloat v).
  vm_compute in Hrule. injection Hrule as <-. injection Ht as <-.
  repeat split; assumption.
Defined.


Lemma low_receipt_penalty_noop_witness :
  exists rule,
    rules !! 3 = Some rule
    /\ low_receipt rule false 1.42 = true
    /\ calculate stub_general stub_outlier (int 3) (int 93) (flt 1.42)
       = (reimbursement ←
            short_trip_without_penalty rule (default no_params (params !! 3)) 93 1.42;
          Ok (py_round2 reimbursement)).
Proof.
  destruct (rules !! 3) as [rule | ] eqn:Hrule; [|discriminate].
  exists rule. split; [reflexivity|].
  split; [vm_compute in Hrule; injection Hrule as <-; reflexivity|].
  apply (low_receipt_penalty_noop stub_general stub_outlier _ _ _ 3 93 1.42%float rule);
    try reflexivity. exact Hrule.
Defined.

Lemma receipt_term_by_regime_witness :
  exists rule dp,
    rules !! 1 = Some rule /\ params !! 1 = Some dp
    /\ receipt_reimbursement rule dp false 100 = Ok (NFloat 75)
    /\ receipt_reimbursement rule dp true 2000 = Ok (NFloat 1020).
Proof.
  destruct (rules !! 1) as [rule | ] eqn:Hrule; [|discriminate].
  destruct (params !! 1) as [dp | ] eqn:Hdp; [|discriminate].
  exists rule, dp. split; [reflexivity|]. split; [reflexivity|].
  destruct (proj1 (receipt_term_by_regime 1 rule dp 100 Hrule Hdp))
    as (rate & _ & _ & cap & _ & _ & Hrate & Hcap & _ & _ & _ & _ & _ & Hnormal & _).
  destruct (proj1 (receipt_term_by_regime 1 rule dp 2000 Hrule Hdp))
    as (_ & orate & offset & _ & _ & pen & _ & _ & _ & Horate & Hpen & Hoff & _ & _ & Hout).
  rewrite Hnormal, Hout.
  vm_compute in Hrule, Hdp. injection Hrule as <-. injection Hdp as <-.
  injection Hrate as <-. injection Hcap as <-.
  injection Horate as <-. injection Hpen as <-.
  vm_compute in Hoff. injection Hoff as <-.
  split; reflexivity.
Defined.


Lemma calculate_truncates_witness :
  py_int (flt 3.9) = Ok 3 /\ py_int (flt 93.7) = Ok 93
  /\ py_int (flt (-3.9)) = Ok (-3)
  /\ calculate stub_general stub_outlier (flt 3.9) (flt 93.7) (flt 1.42)
     = calculate stub_general stub_outlier (int 3) (int 93) (flt 1.42).
Proof.
  destruct (calculate_truncates stub_general stub_outlier (NFloat 3.9) (NFloat 93.7)
              (flt 1.42) eq_refl eq_refl) as ((Hd & Hm) & Hint & Hcalc & _).
  destruct (calculate_truncates stub_general stub_outlier (NFloat (-3.9)) (NFloat 93.7)
              (flt 1.42) eq_refl eq_refl) as ((Hd' & _) & _).
  unfold flt in *.
  split; [rewrite Hd; vm_compute; reflexivity|].
  split; [rewrite Hm; vm_compute; reflexivity|].
  split; [rewrite Hd'; vm_compute; reflexivity|].
  rewrite Hcalc. vm_compute. reflexivity.
Defined.


End SolutionFacts.

Module SolverV5Facts.
Import Py PyFacts SolverV5.

(** Nothing is anomalous when the bug threshold is not above the anomaly
    threshold. *)
Lemma anomaly_band_empty (dp : DayParams) (r : float) :
  py_le (bug_limit dp) (anomaly_limit dp) = true -> detect dp r <> Anomaly.
Proof.
  intros Hle. unfold detect, is_anomaly, is_bug.
  destruct (py_gt (NFloat r) (bug_limit dp)) eqn:Hb; [discriminate|].
  destruct (py_gt (NFloat r) (anomaly_limit dp)) eqn:Ha; [|discriminate].
  exfalso. by_values.
Qed.


(** C5: the detector of [solver_v5.py] puts every receipts value in one
    regime, bug above [bug_threshold], else anomaly above
    [anomaly_threshold], else normal; larger receipts never fall back to an
    earlier regime.  The anomaly regime is passed through only where the
    thresholds leave room for it: with the anomaly threshold below the bug
    threshold, receipts equal to the bug threshold are anomalous and lie
    between any normal and any bug receipts; with the bug threshold at or
    below the anomaly threshold nothing is anomalous, and growing receipts
    go from normal to bug.  The single test of [solution.py] behaves the
    same way with its one threshold. *)
Theorem regime_ordering (dp : DayParams) (r1 r2 : float) :
  py_le (NFloat r1) (NFloat r2) = true ->
  (forall r,
      (detect dp r = Bug <-> py_gt (NFloat r) (bug_limit dp) = true)
      /\ (detect dp r = Anomaly <->
            py_gt (NFloat r) (bug_limit dp) = false
            /\ py_gt (NFloat r) (anomaly_limit dp) = true)
      /\ (detect dp r = Normal <->
            py_gt (NFloat r) (bug_limit dp) = false
            /\ py_gt (NFloat r) (anomaly_limit dp) = false))
  /\ rank (detect dp r1) <= rank (detect dp r2)
  /\ (forall r,
        py_lt (anomaly_limit dp) (bug_limit dp) = true ->
        py_eq (NFloat r) (bug_limit dp) = true ->
        detect dp r = Anomaly
        /\ (detect dp r1 = Normal -> py_lt (NFloat r1) (NFloat r) = true)
        /\ (detect dp r2 = Bug -> py_lt (NFloat r) (NFloat r2) = true))
  /\ (py_le (bug_limit dp) (anomaly_limit dp) = true ->
      forall r, detect dp r <> Anomaly)
  /\ (forall dp' : Solution.DayParams,
        Solution.is_outlier dp' r1 = true -> Solution.is_outlier dp' r2 = true).
Proof.
  intros Hle.
  assert (Hchar : forall r,
      (detect dp r = Bug <-> py_gt (NFloat r) (bug_limit dp) = true)
      /\ (detect dp r = Anomaly <->
            py_gt (NFloat r) (bug_limit dp) = false
            /\ py_gt (NFloat r) (anomaly_limit dp) = true)
      /\ (detect dp r = Normal <->
            py_gt (NFloat r) (bug_limit dp) = false
            /\ py_gt (NFloat r) (anomaly_limit dp) = false)).
  { intros r. unfold detect, is_anomaly, is_bug.
    destruct (py_gt (NFloat r) (bug_limit dp)),
             (py_gt (NFloat r) (anomaly_limit dp)); cbn [negb andb];
      (split; [|split]); split;
      first [ reflexivity | discriminate | intros [? ?]; discriminate
            | now split ]. }
  split; [exact Hchar|]. split; [|split; [|split]].
  - unfold detect, is_anomaly, is_bug.
    destruct (py_gt (NFloat r1) (bug_limit dp)) eqn:Hb1.
    + rewrite (py_gt_mono _ _ _ Hle Hb1). reflexivity.
    + destruct (py_gt (NFloat r1) (anomaly_limit dp)) eqn:Ha1; cbn [negb andb].
      * rewrite (py_gt_mono _ _ _ Hle Ha1).
        destruct (py_gt (NFloat r2) (bug_limit dp)); cbn; lia.
      * destruct (py_gt (NFloat r2) (bug_limit dp)); [cbn; lia|].
        destruct (py_gt (NFloat r2) (anomaly_limit dp)); cbn; lia.
  - intros r Hlt Heq. split; [|split].
    + apply Hchar. clear Hle. split; by_values.
    + intros Hn. apply Hchar in Hn as [_ Ha]. clear Hchar. by_values.
    + intros Hbug. apply Hchar in Hbug. clear Hchar Hle Hlt. by_values.
  - intros Hempty r. now apply anomaly_band_empty.
  - intros dp'. unfold Solution.is_outlier. apply py_gt_mono, Hle.
Qed.

(** C5, parameters that refute it as stated: with the two thresholds
    equal, growing receipts go from normal to bug and are never anomalous. *)
Lemma anomaly_regime_skipped :
  py_le (NFloat 1000) (NFloat 1001) = true
  /\ detect equal_limits 1000 = Normal
  /\ detect equal_limits 1001 = Bug
  /\ (forall r, detect equal_limits r <> Anomaly)
  /\ calculate Solution.rules {[ 1 := equal_limits ]}
       (Solution.int 1) (Solution.int 100) (Solution.flt 1000) = Ok (NFloat 835)
  /\ calculate Solution.rules {[ 1 := equal_limits ]}
       (Solution.int 1) (Solution.int 100) (Solution.flt 1001) = Ok (NFloat 135.05).
Proof.
  split; [reflexivity|]. split; [reflexivity|]. split; [reflexivity|].
  split; [|split; reflexivity].
  intros r. apply anomaly_band_empty. reflexivity.
Qed.

Example three_regimes :
  let params : gmap Z DayParams :=
    {[ 1 := Build_DayParams (Some (NInt 1000)) (Some (NFloat 0.5))
                            (Some (NInt 2000)) (Some (NFloat 0.05)) ]} in
  calculate Solution.rules params (Solution.int 1) (Solution.int 100) (Solution.flt 500)
  = Ok (NFloat 460)
  /\ calculate Solution.rules params (Solution.int 1) (Solution.int 100) (Solution.flt 1500)
     = Ok (NFloat 835)
  /\ calculate Solution.rules params (Solution.int 1) (Solution.int 100) (Solution.flt 2500)
     = Ok (NFloat 210)
  /\ calculate Solution.rules params (Solution.int 9) (Solution.int 100) (Solution.flt 2500)
     = Ok (NInt 0).
Proof. repeat split. Qed.


Lemma regime_ordering_witness :
  let dp := Build_DayParams (Some (NInt 1000)) (Some (NFloat 0.5))
                            (Some (NInt 1200)) (Some (NFloat 0.05)) in
  py_le (NFloat 500) (NFloat 2500) = true
  /\ detect dp 500 = Normal /\ detect dp 2500 = Bug
  /\ rank (detect dp 500) <= rank (detect dp 2500)
  /\ py_lt (anomaly_limit dp) (bug_limit dp) = true
  /\ py_eq (NFloat 1200) (bug_limit dp) = true
  /\ detect dp 1200 = Anomaly
  /\ py_lt (NFloat 500) (NFloat 1200) = true
  /\ py_lt (NFloat 1200) (NFloat 2500) = true.
Proof.
  intros dp.
  destruct (regime_ordering dp 500 2500 eq_refl) as (_ & Hrank & Hband & _).
  destruct (Hband 1200%float eq_refl eq_refl) as (Hmid & Hlow & Hhigh).
  do 3 (split; [reflexivity|]). split; [exact Hrank|].
  do 2 (split; [reflexivity|]). split; [exact Hmid|].
  split; [apply Hlow | apply Hhigh]; reflexivity.
Defined.

End SolverV5Facts.

(** * Conversions and arithmetic that cannot fail *)

Module PyMore.
Import Py PyFacts.

Lemma digits2_pos_iter_xO (p k : positive) :
  Zpos (digits2_pos (Pos.iter xO p k)) = Zpos (digits2_pos p) + Zpos k.
Proof.
  induction k as [ | k IH] using Pos.peano_ind.
  - cbn. lia.
  - rewrite Pos.iter_succ. cbn [digits2_pos]. lia.
Qed.

Lemma iter_xO_value (p k : positive) :
  Zpos (Pos.iter xO p k) = Zpos p * 2 ^ Zpos k.
Proof.
  induction k as [ | k IH] using Pos.peano_ind.
  - cbn. lia.
  - rewrite Pos.iter_succ, Pos2Z.inj_succ, Z.pow_succ_r by lia.
    rewrite Pos2Z.inj_xO, IH. lia.
Qed.

(** An int of at most 53 bits converts to the float
    of least exponent that holds it. *)
Lemma binary_round_small (s : bool) (p : positive) :
  Zpos (digits2_pos p) <= 53 ->
  exists m e,
    binary_round prec emax s p 0 = S754_finite s m e
    /\ bounded prec emax m e = true
    /\ Zpos m * 2 ^ (e + 1074) = Zpos p * scale.
Proof.
  intros Hd. set (d := Zpos (digits2_pos p)) in *.
  assert (Hd1 : 1 <= d) by (subst d; lia).
  unfold binary_round.
  assert (Hfexp : fexp prec emax (d + 0) = d - 53)
    by (unfold fexp, SpecFloat.emin, prec, emax; lia).
  fold d. rewrite Hfexp. unfold shl_align.
  destruct (d - 53 - 0) as [ | q | q] eqn:Hq; try lia.
  - (* d = 53 *)
    exists p, 0. assert (d = 53) by lia.
    unfold binary_round_aux, shr_fexp. cbn [Zdigits2]. fold d.
    replace (fexp prec emax (d + 0) - 0) with 0 by lia.
    cbn [shr shr_record_of_loc shr_m loc_of_shr_record round_nearest_even Zdigits2].
    fold d. replace (fexp prec emax (d + 0) - 0) with 0 by lia.
    cbn [shr shr_record_of_loc shr_m].
    split; [reflexivity|]. split.
    + unfold bounded, canonical_mantissa. fold d. rewrite Hfexp.
      apply andb_true_intro. split; [apply Z.eqb_eq; lia | reflexivity].
    + reflexivity.
  - (* d < 53 *)
    set (mz := Pos.iter xO p q).
    assert (Hdz : Zpos (digits2_pos mz) = 53)
      by (subst mz; rewrite digits2_pos_iter_xO; fold d; lia).
    assert (Hf2 : fexp prec emax (53 + (d - 53)) = d - 53)
      by (unfold fexp, SpecFloat.emin, prec, emax; lia).
    exists mz, (d - 53).
    unfold binary_round_aux, shr_fexp. cbn [Zdigits2]. rewrite Hdz, Hf2.
    replace (d - 53 - (d - 53)) with 0 by lia.
    cbn [shr shr_record_of_loc shr_m loc_of_shr_record round_nearest_even Zdigits2].
    rewrite Hdz, Hf2. replace (d - 53 - (d - 53)) with 0 by lia.
    cbn [shr shr_record_of_loc shr_m].
    replace (d - 53 <=? emax - prec) with true
      by (symmetry; apply Z.leb_le; unfold emax, prec; lia).
    split; [reflexivity|]. split.
    + unfold bounded, canonical_mantissa. rewrite Hdz, Hf2.
      apply andb_true_intro. split; [apply Z.eqb_eq; lia|].
      apply Z.leb_le. unfold emax, prec. lia.
    + subst mz. rewrite iter_xO_value.
      replace (Zpos q) with (53 - d) by lia. unfold scale.
      rewrite <- Z.mul_assoc, <- Z.pow_add_r by lia. do 2 f_equal. lia.
Qed.

Lemma small_digits (p : positive) : Zpos p < 2 ^ 53 -> Zpos (digits2_pos p) <= 53.
Proof.
  intros Hp. pose proof (digits2_pos_bounds p) as [Hlo _].
  destruct (Z_le_gt_dec (Zpos (digits2_pos p)) 53) as [H | H]; [exact H|].
  exfalso. assert (2 ^ 53 <= 2 ^ (Zpos (digits2_pos p) - 1))
    by (apply Z.pow_le_mono_r; lia). lia.
Qed.

(** [float(z)] is exact, and raises nothing, for an int below [2^53] in
    magnitude. *)
Lemma float_of_int_exact (z : Z) :
  Z.abs z < 2 ^ 53 ->
  exists f, float_of_int z = Ok f /\ value (NFloat f) = Some (Fin (z * scale)).
Proof.
  intros Hz. unfold float_of_int, value.
  destruct z as [ | p | p]; cbn [binary_normalize].
  - exists 0%float. split; reflexivity.
  - destruct (binary_round_small false p) as (m & e & -> & Hb & Hv);
      [apply small_digits; lia|].
    eexists. split; [reflexivity|].
    rewrite Prim2SF_SF2Prim by exact Hb. cbn [SFvalue cond_Zopp]. now rewrite Hv.
  - destruct (binary_round_small true p) as (m & e & -> & Hb & Hv);
      [apply small_digits; lia|].
    eexists. split; [reflexivity|].
    rewrite Prim2SF_SF2Prim by exact Hb. cbn [SFvalue cond_Zopp].
    rewrite Z.mul_opp_l, Hv. reflexivity.
Qed.

(** *** Arithmetic that cannot fail *)

Lemma to_float_small (z : Z) : Z.abs z < 2 ^ 53 -> exists f, to_float (NInt z) = Ok f.
Proof. intros Hz. destruct (float_of_int_exact z Hz) as (f & Hf & _). now exists f. Qed.

Lemma arith_float (fz : Z -> Z -> Z) (ff : float -> float -> float)
      (a b : num) (x y : float) :
  to_float a = Ok x -> to_float b = Ok y ->
  (forall u v, a = NInt u -> b = NInt v -> False) ->
  arith fz ff a b = Ok (NFloat (ff x y)).
Proof.
  intros Ha Hb Hmixed. unfold arith.
  destruct a as [u | u], b as [v | v]; try (exfalso; now eapply Hmixed);
    rewrite Ha; cbn [bind]; rewrite Hb; reflexivity.
Qed.

(** The arithmetic of [Py] raises nothing but [OverflowError]. *)
Lemma to_float_raise (a : num) (e : exn) : to_float a = Raise e -> e = OverflowError.
Proof.
  destruct a as [z | f]; cbn [to_float]; [|discriminate].
  unfold float_of_int. destruct (binary_normalize prec emax z 0 false);
    congruence.
Qed.

Lemma arith_raise (fz : Z -> Z -> Z) (ff : float -> float -> float)
      (a b : num) (e : exn) :
  arith fz ff a b = Raise e -> e = OverflowError.
Proof.
  unfold arith. intros H.
  assert (Hgen : bind (to_float a) (fun x => bind (to_float b) (fun y => Ok (NFloat (ff x y))))
                 = Raise e -> e = OverflowError).
  { destruct (to_float a) eqn:Ha; cbn [bind].
    - destruct (to_float b) eqn:Hb; cbn [bind]; [discriminate|].
      intros [= <-]. now apply (to_float_raise b).
    - intros [= <-]. now apply (to_float_raise a). }
  destruct a, b; try discriminate; now apply Hgen.
Qed.

End PyMore.

(** * numpy's [rint] *)

Module NumpyFacts.
Import Py PyFacts PyMore PyLists.

Lemma div_half_even_nearest (n d : Z) :
  0 < d -> 2 * Z.abs (div_half_even n d * d - n) <= d.
Proof.
  intros Hd. unfold div_half_even.
  pose proof (Z.div_mod n d ltac:(lia)) as Hdm.
  pose proof (Z.mod_pos_bound n d Hd) as Hb.
  destruct (Z.compare_spec (2 * (n mod d)) d) as [He | Hl | Hg];
    [destruct (Z.even (n / d))| |]; nia.
Qed.

Lemma div_half_even_bounds (n d : Z) :
  0 <= n -> 2 <= d -> 0 <= div_half_even n d <= n / 2 + 1.
Proof.
  intros Hn Hd. unfold div_half_even.
  pose proof (Z.div_mod n d ltac:(lia)) as Hdm.
  pose proof (Z.mod_pos_bound n d ltac:(lia)) as Hb.
  pose proof (Z.div_pos n d Hn ltac:(lia)) as Hq.
  pose proof (Z.div_mod n 2 ltac:(lia)) as Hdm2.
  pose proof (Z.mod_pos_bound n 2 ltac:(lia)) as Hb2.
  destruct (Z.compare_spec (2 * (n mod d)) d) as [He | Hl | Hg];
    [destruct (Z.even (n / d))| |]; nia.
Qed.

Lemma int_to_float_value (z : Z) :
  Z.abs z < 2 ^ 53 ->
  value (NFloat (SF2Prim (binary_normalize prec emax z 0 false)))
  = Some (Fin (z * scale)).
Proof.
  intros Hz. destruct (float_of_int_exact z Hz) as (f & Hf & Hv).
  unfold float_of_int in Hf.
  destruct (binary_normalize prec emax z 0 false); try discriminate;
    injection Hf as <-; exact Hv.
Qed.

(** [np_rint] gives an integer, and one nearest to its argument. *)
Lemma np_rint_nearest (f : float) (v : Z) :
  value (NFloat f) = Some (Fin v) ->
  exists k, value (NFloat (np_rint f)) = Some (Fin (k * scale))
            /\ 2 * Z.abs (k * scale - v) <= scale.
Proof.
  pose proof scale_pos as Hs. pose proof (Prim2SF_valid f) as Hvalid.
  unfold value, np_rint.
  destruct (Prim2SF f) as [s | s | | s m e] eqn:Hf; cbn [SFvalue];
    try discriminate; [| now destruct s |].
  - intros [= <-]. exists 0. rewrite Hf. cbn [SFvalue]. split; [reflexivity | lia].
  - intros [= <-]. cbn [valid_binary] in Hvalid.
    apply bounded_inv in Hvalid as (He & Hm & _).
    destruct e as [ | p | p].
    + exists (cond_Zopp s (Zpos m)). rewrite Hf. cbn [SFvalue].
      change (0 + 1074) with 1074. fold scale. split; [reflexivity|].
      rewrite Z.sub_diag. cbn. lia.
    + exists (cond_Zopp s (Zpos m) * 2 ^ Zpos p). rewrite Hf. cbn [SFvalue].
      rewrite Z.pow_add_r by lia. fold scale.
      rewrite Z.mul_assoc. split; [reflexivity|].
      rewrite Z.sub_diag. cbn. lia.
    + pose proof (pow2_pos (Zpos p) ltac:(lia)) as Hp.
      assert (H2p : 2 <= 2 ^ Zpos p).
      { change 2 with (2 ^ 1) at 1. apply Z.pow_le_mono_r; lia. }
      pose proof (div_half_even_nearest (Zpos m) (2 ^ Zpos p) Hp) as Hnear.
      pose proof (div_half_even_bounds (Zpos m) (2 ^ Zpos p) ltac:(lia) H2p) as Hq.
      assert (Hscale : scale = 2 ^ Zpos p * 2 ^ (Zneg p + 1074)).
      { unfold scale. rewrite <- Z.pow_add_r by lia. f_equal. lia. }
      pose proof (pow2_pos (Zneg p + 1074) ltac:(lia)) as Hp'.
      set (q := div_half_even (Zpos m) (2 ^ Zpos p)) in *.
      set (w := 2 ^ (Zneg p + 1074)) in *.
      assert (Hdist : 2 * Z.abs (q * scale - Zpos m * w) <= scale).
      { rewrite Hscale. replace (q * (2 ^ Zpos p * w) - Zpos m * w)
          with ((q * 2 ^ Zpos p - Zpos m) * w) by ring.
        rewrite Z.abs_mul, (Z.abs_eq w) by lia. nia. }
      destruct q as [ | k | k] eqn:Hqe; [| |lia].
      * exists 0. rewrite Prim2SF_SF2Prim by reflexivity. cbn [SFvalue].
        split; [reflexivity|].
        destruct s; cbn [cond_Zopp]; rewrite ?Z.abs_opp in *; lia.
      * exists (cond_Zopp s (Zpos k)).
        assert (Hk : Z.abs (cond_Zopp s (Zpos k)) < 2 ^ 53).
        { assert (Zpos m / 2 + 1 <= 2 ^ 52).
          { change (2 ^ 53) with (2 * 2 ^ 52) in Hm.
            pose proof (Z.div_mod (Zpos m) 2 ltac:(lia)).
            pose proof (Z.mod_pos_bound (Zpos m) 2 ltac:(lia)). lia. }
          assert (2 ^ 52 < 2 ^ 53) by reflexivity.
          destruct s; cbn [cond_Zopp]; lia. }
        split; [apply (int_to_float_value _ Hk)|].
        destruct s; cbn [cond_Zopp].
        -- replace (- Zpos k * scale - - Zpos m * w)
             with (- (Zpos k * scale - Zpos m * w)) by ring.
           rewrite Z.abs_opp. exact Hdist.
        -- exact Hdist.
Qed.
End NumpyFacts.

(** * Long trips *)

Module LongTripFacts.
Import Py PyFacts NumpyFacts Solution SolutionFacts.

(** C6: a duration in 8..14 is answered by one model, the outlier model
    when receipts exceed 2500 and the general one otherwise, on the
    duration, miles and receipts as converted; the model not chosen has no
    part in the result.  The prediction is a [numpy.float64], so the
    rounding to two decimals is numpy's: the prediction times 100, taken to
    a nearest integer (ties to even), divided by 100, each step in
    binary64. *)
Theorem long_trip_routing
        (gm om : Z -> Z -> float -> result float) (vd vm vr : pyval)
        (d m : Z) (r : float) :
  py_int vd = Ok d -> py_int vm = Ok m -> py_float vr = Ok r ->
  8 <= d <= 14 ->
  calculate gm om vd vm vr =
    (prediction ← (if py_gt (NFloat r) (NInt 2500) then om else gm) d m r;
     Ok (NFloat (np_rint (prediction * 100) / 100)%float))
  /\ (forall (prediction : float) (v : Z),
        value (NFloat (prediction * 100)%float) = Some (Fin v) ->
        exists k, value (NFloat (np_rint (prediction * 100))) = Some (Fin (k * scale))
                  /\ 2 * Z.abs (k * scale - v) <= scale)
  /\ (py_gt (NFloat r) (NInt 2500) = true ->
      forall gm', calculate gm' om vd vm vr = calculate gm om vd vm vr)
  /\ (py_gt (NFloat r) (NInt 2500) = false ->
      forall om', calculate gm om' vd vm vr = calculate gm om vd vm vr).
Proof.
  intros Hd Hm Hr Hlong.
  pose proof (fun g o => calculate_long g o vd vm vr d m r Hd Hm Hr Hlong) as Hcalc.
  split; [apply Hcalc|]. split; [intros p v; apply np_rint_nearest|].
  split; intros Hsel ?; rewrite !Hcalc, Hsel; reflexivity.
Qed.

(** numpy's rounding and Python's part on predictions such as these. *)
Example numpy_round :
  np_round2 2.675 = 2.68%float /\ float_round2 2.675 = 2.67%float
  /\ np_round2 1000.675 = 1000.68%float /\ float_round2 1000.675 = 1000.67%float
  /\ np_round2 1500.005 = 1500%float /\ float_round2 1500.005 = 1500.01%float
  /\ np_round2 (-0.001) = (-0)%float /\ np_round2 infinity = infinity
  /\ np_rint 0.5 = 0%float /\ np_rint 1.5 = 2%float /\ np_rint 2.5 = 2%float
  /\ np_rint (-2.5) = (-2)%float /\ np_rint 4503599627370497 = 4503599627370497%float.
Proof. repeat split. Qed.

Lemma long_trip_routing_witness :
  calculate tie_general tie_outlier (int 8) (int 862) (flt 1817.85)
  = Ok (NFloat 1000.68)
  /\ calculate tie_general tie_outlier (int 8) (int 862) (flt 2500.01)
     = Ok (NFloat 1500)
  /\ calculate tie_general failing_model (int 8) (int 862) (flt 1817.85)
     = Ok (NFloat 1000.68)
  /\ calculate failing_model tie_outlier (int 8) (int 862) (flt 1817.85)
     = Raise ValueError.
Proof.
  split; [|split; [|split]].
  - rewrite (proj1 (long_trip_routing tie_general tie_outlier
                      (int 8) (int 862) (flt 1817.85) 8 862 1817.85%float
                      eq_refl eq_refl eq_refl ltac:(lia))).
    vm_compute. reflexivity.
  - rewrite (proj1 (long_trip_routing tie_general tie_outlier
                      (int 8) (int 862) (flt 2500.01) 8 862 2500.01%float
                      eq_refl eq_refl eq_refl ltac:(lia))).
    vm_compute. reflexivity.
  - rewrite (proj1 (long_trip_routing tie_general failing_model
                      (int 8) (int 862) (flt 1817.85) 8 862 1817.85%float
                      eq_refl eq_refl eq_refl ltac:(lia))).
    vm_compute. reflexivity.
  - rewrite (proj1 (long_trip_routing failing_model tie_outlier
                      (int 8) (int 862) (flt 1817.85) 8 862 1817.85%float
                      eq_refl eq_refl eq_refl ltac:(lia))).
    vm_compute. reflexivity.
Defined.

End LongTripFacts.

(** * Lists and search loops *)

Module PyListsFacts.
Import Py PyFacts PyLists.

Lemma elem_of_py_range (x start stop step : Z) :
  0 < step ->
  x ∈ py_range start stop step <->
  exists i, 0 <= i /\ x = start + i * step /\ x < stop.
Proof.
  intros Hstep. unfold py_range. rewrite list_elem_of_fmap.
  set (n := (stop - start + step - 1) / step).
  assert (Hn : forall i, i < n <-> start + i * step < stop).
  { intros i. subst n. split; intros H.
    - pose proof (Z.mul_div_le (stop - start + step - 1) step Hstep). nia.
    - assert (i + 1 <= (stop - start + step - 1) / step); [|lia].
      apply Z.div_le_lower_bound; [lia | nia]. }
  split.
  - intros (i & -> & Hi). apply elem_of_seqZ in Hi. exists i.
    split; [lia|]. split; [reflexivity|]. apply Hn. lia.
  - intros (i & Hi & -> & Hlt). exists i. split; [reflexivity|].
    apply elem_of_seqZ. apply Hn in Hlt. lia.
Qed.

(** [<] on floats is [Py]'s comparison. *)
Lemma ltb_py_lt (a b : float) : (a <? b)%float = py_lt (NFloat a) (NFloat b).
Proof. now rewrite ltb_spec. Qed.

Lemma ltb_irrefl (a : float) : (a <? a)%float = false.
Proof. rewrite ltb_py_lt. by_values. Qed.

Lemma ltb_not_below (t s b : float) :
  (t <? b)%float = false -> (s <? b)%float = true -> (t <? s)%float = false.
Proof. rewrite !ltb_py_lt. by_values. Qed.

Section BestOf.
Context {A : Type} (score : A -> float).

Lemma best_of_acc (xs : list A) (b0 : float) (x0 : A) :
  let st := foldl (keep_best score) (b0, x0) xs in
  (forall t, (t <? b0)%float = false -> (t <? st.1)%float = false)
  /\ (forall y, y ∈ xs -> (score y <? st.1)%float = false)
  /\ (st = (b0, x0) \/ (st.2 ∈ xs /\ st.1 = score st.2)).
Proof.
  revert b0 x0. induction xs as [ | y xs IH]; intros b0 x0; cbn [foldl].
  - split; [auto|]. split; [|now left]. intros y Hy. inversion Hy.
  - replace (keep_best score (b0, x0) y)
      with (if (score y <? b0)%float then (score y, y) else (b0, x0))
      by reflexivity.
    destruct (score y <? b0)%float eqn:Hlt.
    + destruct (IH (score y) y) as (Hmono & Hall & Hmem). split; [|split].
      * intros t Ht. apply Hmono. eapply ltb_not_below; eassumption.
      * intros z Hz. apply elem_of_cons in Hz as [-> | Hz]; [|now apply Hall].
        apply Hmono, ltb_irrefl.
      * right. destruct Hmem as [-> | [Hin Heq]]; cbn [fst snd].
        -- split; [apply elem_of_cons; now left | reflexivity].
        -- split; [apply elem_of_cons; now right | exact Heq].
    + destruct (IH b0 x0) as (Hmono & Hall & Hmem). split; [exact Hmono|]. split.
      * intros z Hz. apply elem_of_cons in Hz as [-> | Hz]; [|now apply Hall].
        now apply Hmono.
      * destruct Hmem as [Heq | [Hin Heq]]; [now left | right].
        split; [apply elem_of_cons; now right | exact Heq].
Qed.

(** The loop returns a candidate that no other candidate beats, the first
    such one left in place, or the initial value when no score is below
    infinity. *)
Lemma best_of_spec (init : A) (xs : list A) :
  (forall y, y ∈ xs -> (score y <? (best_of score init xs).1)%float = false)
  /\ (best_of score init xs = (infinity, init)
      \/ ((best_of score init xs).2 ∈ xs
          /\ (best_of score init xs).1 = score (best_of score init xs).2)).
Proof.
  unfold best_of. destruct (best_of_acc xs infinity init) as (_ & Hall & Hmem).
  split; assumption.
Qed.
End BestOf.
End PyListsFacts.

(** * More on the calculator of [solution.py] *)

Module SolutionMore.
Import Py PyFacts PyMore Solution SolutionFacts.

(** X1: the chain of hardcoded cases of [calculate] ([solution.py], lines
    41-51) answers on the five recorded triples and on nothing else: it
    returns [amount] for a duration, miles and receipts exactly when the
    four of them are one of the five entries written in the source.  Each
    of the five amounts is a two-decimal value already: the [round] that the
    early [return] skips would have left it as it is. *)
Theorem hardcoded_case_exact (d m : Z) (r amount : float) :
  (hardcoded_case d m r = Some amount <-> In (d, m, r, amount) hardcoded)
  /\ (In (d, m, r, amount) hardcoded -> float_round2 amount = amount).
Proof.
  split; [split|].
  - unfold hardcoded_case, hardcoded. cbn [List.find].
    repeat match goal with
           | |- context [if ?c then _ else _] =>
               let Hc := fresh "Hc" in
               destruct c eqn:Hc;
               [ intros [= <-];
                 apply andb_prop in Hc as [Hc Hr]; apply andb_prop in Hc as [Hd Hm];
                 apply Z.eqb_eq in Hd, Hm; subst d m;
                 eapply float_eqb_finite in Hr; [subst r | vm_compute; reflexivity];
                 cbn [In]; tauto
               | ]
           end.
    discriminate.
  - unfold hardcoded. cbn [In].
    intros Hin. repeat destruct Hin as [Hin | Hin]; try contradiction;
      injection Hin as <- <- <- <-; reflexivity.
  - unfold hardcoded. cbn [In].
    intros Hin. repeat destruct Hin as [Hin | Hin]; try contradiction;
      injection Hin as <- <- <- <-; reflexivity.
Qed.

(** *** The formula branch cannot fail on miles of ordinary size *)

Ltac run := cbn [mbind result_bind bind].

Section TypedRule.
Variables (pd T cap lt lp : Z) (r1 r2 rr : float).
Let rule : Rule :=
  Build_Rule (NInt pd) (NFloat r1) (NInt T) (NFloat r2) (NFloat rr)
             (NInt cap) (NInt lt) (NInt lp).
Hypothesis Hpd : Z.abs pd < 2 ^ 53.
Hypothesis HT : Z.abs T < 2 ^ 53.
Hypothesis Hcap : Z.abs cap < 2 ^ 53.
Hypothesis Hlp : Z.abs lp < 2 ^ 53.

Lemma mileage_float (m : Z) :
  Z.abs m < 2 ^ 53 -> Z.abs (m - T) < 2 ^ 53 ->
  exists x, mileage_reimbursement rule m = Ok (NFloat x).
Proof.
  intros Hm Hover.
  destruct (to_float_small m Hm) as (fm & Hfm).
  destruct (to_float_small T HT) as (fT & HfT).
  destruct (to_float_small (m - T) Hover) as (fo & Hfo).
  unfold mileage_reimbursement, mileage_above, mileage_within.
  unfold rule. cbn [mileage_threshold mileage_rate1 mileage_rate2].
  destruct (py_gt (NInt m) (NInt T)).
  - unfold py_mul, py_sub, py_add.
    rewrite (arith_float _ _ (NInt T) (NFloat r1) fT r1 HfT eq_refl)
      by discriminate.
    run. cbn [arith]. run.
    rewrite (arith_float _ _ (NInt (m - T)) (NFloat r2) fo r2 Hfo eq_refl)
      by discriminate.
    run. eexists. reflexivity.
  - unfold py_mul.
    rewrite (arith_float _ _ (NInt m) (NFloat r1) fm r1 Hfm eq_refl)
      by discriminate.
    eexists. reflexivity.
Qed.

Lemma receipt_float (dp : DayParams) (outlier : bool) (r : float) (orate open : float) :
  to_float (default (NInt 0) (outlier_rate dp)) = Ok orate ->
  to_float (default (NInt 0) (outlier_penalty dp)) = Ok open ->
  exists v, receipt_reimbursement rule dp outlier r = Ok v
            /\ ((exists x, v = NFloat x) \/ v = NInt cap).
Proof.
  intros Hrate Hpen. unfold receipt_reimbursement.
  unfold rule. cbn [receipt_rate receipt_cap]. destruct outlier.
  - unfold py_mul, py_add.
    rewrite (arith_float _ _ (NFloat r) _ r orate eq_refl Hrate) by discriminate.
    run.
    rewrite (arith_float _ _ (NFloat _) _ _ open eq_refl Hpen) by discriminate.
    eexists. split; [reflexivity | left; eauto].
  - cbn [py_mul arith to_float bind]. run.
    eexists. split; [reflexivity|].
    unfold py_min. destruct (py_lt _ _); [now right | left; eauto].
Qed.

Lemma short_trip_float (dp : DayParams) (m : Z) (r : float) (orate open : float) :
  Z.abs m < 2 ^ 53 -> Z.abs (m - T) < 2 ^ 53 ->
  to_float (default (NInt 0) (outlier_rate dp)) = Ok orate ->
  to_float (default (NInt 0) (outlier_penalty dp)) = Ok open ->
  exists x, short_trip rule dp m r = Ok (NFloat x).
Proof.
  intros Hm Hover Hrate Hpen.
  destruct (mileage_float m Hm Hover) as (x & Hx).
  destruct (receipt_float dp (is_outlier dp r) r orate open Hrate Hpen)
    as (v & Hv & Hkind).
  destruct (to_float_small pd Hpd) as (fpd & Hfpd).
  destruct (to_float_small cap Hcap) as (fcap & Hfcap).
  destruct (to_float_small lp Hlp) as (flp & Hflp).
  unfold short_trip. rewrite Hx. run. rewrite Hv. run.
  unfold rule. cbn [per_diem low_receipt_penalty]. unfold py_add, py_sub.
  rewrite (arith_float _ _ (NInt pd) (NFloat x) fpd x Hfpd eq_refl) by discriminate.
  run.
  assert (exists y, arith Z.add add (NFloat (fpd + x)) v = Ok (NFloat y))
    as (y & Hy).
  { destruct Hkind as [(x' & ->) | ->].
    - eexists. reflexivity.
    - rewrite (arith_float _ _ (NFloat _) (NInt cap) _ fcap eq_refl Hfcap)
        by discriminate.
      eexists. reflexivity. }
  rewrite Hy. run.
  destruct (low_receipt _ _ _); [|eexists; reflexivity].
  rewrite (arith_float _ _ (NFloat y) (NInt lp) y flp eq_refl Hflp) by discriminate.
  eexists. reflexivity.
Qed.

(** NaN receipts go through the normal regime and make the amount NaN. *)
Lemma short_trip_nan (dp : DayParams) (m : Z) :
  Z.abs m < 2 ^ 53 -> Z.abs (m - T) < 2 ^ 53 ->
  short_trip rule dp m nan = Ok (NFloat nan).
Proof.
  intros Hm Hover.
  destruct (mileage_float m Hm Hover) as (x & Hx).
  destruct (to_float_small pd Hpd) as (fpd & Hfpd).
  assert (Hout : is_outlier dp nan = false).
  { unfold is_outlier, py_gt. now rewrite compare_value. }
  assert (Hrec : receipt_reimbursement rule dp false nan = Ok (NFloat nan)).
  { unfold receipt_reimbursement, rule. cbn [receipt_rate receipt_cap].
    cbn [py_mul arith to_float bind]. run.
    replace (nan * rr)%float with nan
      by (apply Prim2SF_inj; rewrite mul_spec; reflexivity).
    unfold py_min, py_lt. now rewrite compare_value. }
  unfold short_trip. rewrite Hx, Hout, Hrec. run.
  unfold rule. cbn [per_diem low_receipt_penalty low_receipt_threshold].
  unfold py_add.
  rewrite (arith_float _ _ (NInt pd) (NFloat x) fpd x Hfpd eq_refl) by discriminate.
  run. cbn [arith to_float bind].
  replace (fpd + x + nan)%float with nan.
  - unfold low_receipt, py_lt. cbn [negb andb]. now rewrite compare_value.
  - apply Prim2SF_inj. rewrite add_spec. change (Prim2SF nan) with S754_nan.
    now destruct (Prim2SF (fpd + x)).
Qed.
End TypedRule.

Lemma bind_raise {A B} (c : result A) (k : A -> result B) (e : exn) :
  (c ≫= k) = Raise e -> c = Raise e \/ exists a, c = Ok a /\ k a = Raise e.
Proof.
  destruct c as [a | e']; cbn [mbind result_bind bind]; intros H.
  - right. exists a. now split.
  - injection H as ->. now left.
Qed.

(** Whatever the rule and the parameters, the formula branch raises
    nothing but [OverflowError]. *)
Lemma short_trip_raise (rule : Rule) (dp : DayParams) (m : Z) (r : float) (e : exn) :
  short_trip rule dp m r = Raise e -> e = OverflowError.
Proof.
  assert (Hmile : forall e, mileage_reimbursement rule m = Raise e -> e = OverflowError).
  { intros e'. unfold mileage_reimbursement, mileage_above, mileage_within.
    destruct (py_gt _ _); [|apply arith_raise].
    intros H. apply bind_raise in H as [H | (a & _ & H)]; [now apply arith_raise in H|].
    apply bind_raise in H as [H | (over & _ & H)]; [now apply arith_raise in H|].
    apply bind_raise in H as [H | (b & _ & H)]; now apply arith_raise in H. }
  assert (Hrec : forall o e, receipt_reimbursement rule dp o r = Raise e ->
                             e = OverflowError).
  { intros o e'. unfold receipt_reimbursement. destruct o; intros H.
    - apply bind_raise in H as [H | (a & _ & H)]; now apply arith_raise in H.
    - apply bind_raise in H as [H | (a & _ & H)]; [now apply arith_raise in H|].
      discriminate. }
  unfold short_trip. intros H.
  apply bind_raise in H as [H | (mileage & _ & H)]; [now apply Hmile|].
  apply bind_raise in H as [H | (receipt & _ & H)]; [now apply Hrec in H|].
  apply bind_raise in H as [H | (s & _ & H)]; [now apply arith_raise in H|].
  apply bind_raise in H as [H | (x & _ & H)]; [now apply arith_raise in H|].
  destruct (low_receipt _ _ _); [now apply arith_raise in H | discriminate].
Qed.

Section Converted.
Variables gm om : Z -> Z -> float -> result float.
Variables (vd vm vr : pyval) (d m : Z) (r : float).
Hypothesis Hd : py_int vd = Ok d.
Hypothesis Hm : py_int vm = Ok m.
Hypothesis Hr : py_float vr = Ok r.

Lemma pow53 : 2 ^ 53 = 9007199254740992.
Proof. reflexivity. Qed.

(** X2: on arguments that convert, a duration of 1 to 7 days and miles of
    absolute value up to [2^52], [calculate] raises nothing and returns a
    float: whatever the receipts are (infinite and NaN too), and whatever
    the two models would do. *)
Theorem short_trip_never_fails :
  1 <= d <= 7 -> Z.abs m <= 2 ^ 52 ->
  exists amount, calculate gm om vd vm vr = Ok (NFloat amount).
Proof.
  intros Hday Hmiles. rewrite (calculate_converted gm om vd vm vr d m r Hd Hm Hr).
  destruct (hardcoded_case d m r); [eauto|].
  destruct (rules_lookup_is_Some d Hday) as (rule & Hrule). rewrite Hrule.
  assert (Hst : exists x, short_trip rule (default no_params (params !! d)) m r
                          = Ok (NFloat x)).
  { change (2 ^ 52) with 4503599627370496 in Hmiles.
    each_day Hrule;
      (eapply short_trip_float; rewrite ?pow53;
       first [ reflexivity | lia ]). }
  destruct Hst as (x & ->). run. eexists. reflexivity.
Qed.

(** X3: on arguments that convert and a duration outside 8..14, where no
    model is asked, the only exception [calculate] can raise is
    [OverflowError]: the conversion to float of an integer too large for
    one, in the mileage arithmetic. *)
Theorem formula_raises_only_overflow (e : exn) :
  ~ 8 <= d <= 14 ->
  calculate gm om vd vm vr = Raise e -> e = OverflowError.
Proof.
  intros Hshort. rewrite (calculate_converted gm om vd vm vr d m r Hd Hm Hr).
  destruct (hardcoded_case d m r); [discriminate|].
  destruct (rules !! d) as [rule | ].
  - intros H. apply bind_raise in H as [H | (x & _ & H)]; [|discriminate].
    apply bind_raise in H as [H | (y & _ & H)]; [|discriminate].
    now apply short_trip_raise in H.
  - replace ((8 <=? d) && (d <=? 14)) with false by lia. discriminate.
Qed.

(** X4: NaN receipts are not rejected.  For a duration of 1 to 7 days and
    miles of absolute value up to [2^52], [calculate] on receipts that are
    NaN matches no hardcoded case, takes the normal regime (every
    comparison with NaN is false, and [min] keeps its first argument) and
    returns NaN. *)
Theorem nan_receipts_give_nan :
  1 <= d <= 7 -> Z.abs m <= 2 ^ 52 -> isnan r = true ->
  calculate gm om vd vm vr = Ok (NFloat nan).
Proof.
  intros Hday Hmiles Hnan.
  assert (r = nan) as ->.
  { apply Prim2SF_inj. unfold isnan in Hnan.
    change (Prim2SF nan) with S754_nan. now destruct (Prim2SF r). }
  rewrite (calculate_converted gm om vd vm vr d m nan Hd Hm Hr).
  assert (Hnone : hardcoded_case d m nan = None).
  { unfold hardcoded_case, hardcoded. cbn [List.find].
    repeat match goal with
           | |- context [(nan =? ?c)%float] => change (nan =? c)%float with false
           end.
    now rewrite !andb_false_r. }
  rewrite Hnone.
  destruct (rules_lookup_is_Some d Hday) as (rule & Hrule). rewrite Hrule.
  assert (Hst : short_trip rule (default no_params (params !! d)) m nan
                = Ok (NFloat nan)).
  { change (2 ^ 52) with 4503599627370496 in Hmiles.
    each_day Hrule;
      (eapply short_trip_nan; rewrite ?pow53; first [ reflexivity | lia ]). }
  rewrite Hst. reflexivity.
Qed.
End Converted.

(** X5: with the two tables of [solution.py], receipts below the day's
    [low_receipt_threshold] are never above its [outlier_threshold]: in
    the test of line 74 the conjunct [not is_outlier] follows from
    [total_receipts_amount < rule['low_receipt_threshold']]. *)
Theorem low_receipts_never_outlier (d : Z) (rule : Rule) (dp : DayParams) (r : float) :
  rules !! d = Some rule -> params !! d = Some dp ->
  py_lt (NFloat r) (low_receipt_threshold rule) = true ->
  is_outlier dp r = false.
Proof.
  intros H H'. pose proof scale_pos as Hs.
  each_day_params H H'; unfold is_outlier, py_lt, py_gt;
    cbn [low_receipt_threshold outlier_threshold day_params default from_option id];
    rewrite !compare_value; cbn [value];
    (destruct (SFvalue (Prim2SF r)) as [[ | x | ] | ];
     cbn [compare_values ereal_compare]; intros Hlow;
     [ reflexivity | | discriminate | reflexivity ]);
    destruct (Z.compare_spec x (10 * scale)); try discriminate;
    match goal with
    | |- context [x ?= ?t] => destruct (Z.compare_spec x t)
    end; try reflexivity; lia.
Qed.

(** *** The theorems at concrete inputs *)

Lemma short_trip_never_fails_witness :
  exists amount,
    calculate failing_model failing_model (int 3) (int 93) (flt infinity)
    = Ok (NFloat amount).
Proof.
  apply (short_trip_never_fails failing_model failing_model _ _ _ 3 93 infinity);
    [reflexivity .. | lia | vm_compute; discriminate].
Defined.

Lemma formula_raises_only_overflow_witness :
  exists e,
    calculate stub_general stub_outlier (int 1) (int (10 ^ 400)) (flt 50) = Raise e
    /\ e = OverflowError.
Proof.
  exists OverflowError. split; [vm_compute; reflexivity|].
  apply (formula_raises_only_overflow stub_general stub_outlier
           (int 1) (int (10 ^ 400)) (flt 50) 1 (10 ^ 400) 50%float);
    [reflexivity .. | lia | vm_compute; reflexivity].
Defined.

Lemma nan_receipts_give_nan_witness :
  isnan nan = true
  /\ calculate stub_general stub_outlier (int 3) (int 93) (flt nan) = Ok (NFloat nan).
Proof.
  split; [reflexivity|].
  apply (nan_receipts_give_nan stub_general stub_outlier _ _ _ 3 93 nan);
    [reflexivity .. | lia | vm_compute; discriminate | reflexivity].
Defined.

Lemma low_receipts_never_outlier_witness :
  exists rule dp,
    rules !! 1 = Some rule /\ params !! 1 = Some dp
    /\ py_lt (NFloat 9.99) (low_receipt_threshold rule) = true
    /\ is_outlier dp 9.99 = false.
Proof.
  do 2 eexists. do 2 (split; [reflexivity|]). split; [reflexivity|].
  eapply (low_receipts_never_outlier 1); reflexivity.
Defined.

End SolutionMore.

(** * The solver versions against each other *)

Module VariantsFacts.
Import Py PyFacts.

Ltac run := cbn [mbind result_bind bind].

(** Nothing is above [float('inf')]. *)
Lemma py_gt_inf (a : num) : py_gt a (NFloat infinity) = false.
Proof.
  unfold py_gt. rewrite compare_value.
  change (value (NFloat infinity)) with (Some PInf).
  destruct (value a) as [[ | x | ] | ]; reflexivity.
Qed.

Lemma chain_thresholds_None (day : Z) :
  ~ 1 <= day <= 7 -> SolverV3.chain_thresholds !! day = None.
Proof.
  intros Hd. unfold SolverV3.chain_thresholds. cbn [list_to_map foldr fst snd uncurry].
  rewrite !lookup_insert_ne by lia. apply lookup_empty.
Qed.

(** The table lookup of [solver_v3.py] on the chain's thresholds is the
    chain. *)
Lemma is_outlier_chain (day : Z) (r : float) :
  SolverV3.is_outlier SolverV3.chain_thresholds day r = SolverV2.is_outlier day r.
Proof.
  unfold SolverV3.is_outlier, SolverV2.is_outlier.
  destruct (decide (1 <= day <= 7)) as [Hd | Hd].
  - assert (day = 1 \/ day = 2 \/ day = 3 \/ day = 4 \/ day = 5 \/ day = 6 \/ day = 7)
      as [-> | [-> | [-> | [-> | [-> | [-> | ->]]]]]] by lia;
      match goal with
      | |- context [SolverV3.chain_thresholds !! ?k] =>
          let v := eval vm_compute in (SolverV3.chain_thresholds !! k) in
          change (SolverV3.chain_thresholds !! k) with v
      end;
      cbn [default from_option id Z.eqb Pos.eqb andb];
      now destruct (py_gt _ _).
  - rewrite chain_thresholds_None by exact Hd. cbn [default from_option id].
    rewrite py_gt_inf.
    repeat match goal with
           | |- context [day =? ?k] => replace (day =? k) with false by lia
           end.
    reflexivity.
Qed.

(** X6: the calculator of [solver_v3.py], given as [outlier_thresholds] the
    seven thresholds of the [if] chain of [solver_v2.py] (1900, 1950, 2100,
    2100, 2200, 2300, 2400), is the calculator of [solver_v2.py]: the same
    result or the same exception for all rules and all arguments. *)
Theorem v3_on_chain_is_v2 (rules : gmap Z SolverV2.Rule2) (vd vm vr : pyval) :
  SolverV3.calculate rules SolverV3.chain_thresholds vd vm vr
  = SolverV2.calculate rules vd vm vr.
Proof.
  unfold SolverV3.calculate, SolverV2.calculate.
  destruct (py_int vd) as [day | ]; run; [|reflexivity].
  destruct (py_int vm) as [miles | ]; run; [|reflexivity].
  destruct (py_float vr) as [receipts | ]; run; [|reflexivity].
  now rewrite is_outlier_chain.
Qed.

(** X7: on rules that carry no ['outlier_receipt_rate'], where
    [rule.get] falls back to 0.45, the calculator of [solver_v2.py] is the
    calculator of [solver_v1.py] wherever the duration has a rule or lies
    outside 8..14; on a duration of 8..14 without a rule they part, since
    [solver_v1.py] asks the model and [solver_v2.py] returns 0. *)
Theorem v2_without_rates_is_v1
        (model : Z -> Z -> float -> result float) (rules : gmap Z Solution.Rule)
        (vd vm vr : pyval) (d : Z) :
  py_int vd = Ok d ->
  is_Some (rules !! d) \/ ~ 8 <= d <= 14 ->
  SolverV2.calculate ((fun rule => SolverV2.Build_Rule2 rule None) <$> rules) vd vm vr
  = SolverV1.calculate model rules vd vm vr.
Proof.
  intros Hd Hcase. unfold SolverV2.calculate, SolverV1.calculate.
  rewrite Hd. run.
  destruct (py_int vm) as [miles | ]; run; [|reflexivity].
  destruct (py_float vr) as [receipts | ]; run; [|reflexivity].
  rewrite lookup_fmap.
  destruct (rules !! d) as [rule | ] eqn:Hrule; cbn [fmap option_fmap option_map].
  - unfold SolverV2.evaluate. cbn [SolverV2.base SolverV2.outlier_receipt_rate].
    change (SolverV2.is_outlier d receipts) with (SolverV1.is_outlier_case d receipts).
    destruct (SolverV1.mileage_reimbursement rule miles) as [mileage | ]; run;
      [|reflexivity].
    unfold SolverV1.receipt_reimbursement. cbn [default from_option id].
    match goal with
    | |- (?c ≫= _) = _ => destruct c as [receipt | ]; run; [|reflexivity]
    end.
    destruct (py_add (Solution.per_diem rule) mileage) as [s | ]; run; [|reflexivity].
    destruct (py_add s receipt) as [reimbursement | ]; run; [|reflexivity].
    match goal with
    | |- _ = ((?c ≫= _) ≫= _) => destruct c; reflexivity
    end.
  - destruct Hcase as [[? [=]] | Hcase].
    replace ((8 <=? d) && (d <=? 14)) with false by lia. reflexivity.
Qed.

(** X8: the three-regime calculator of [solver_v5.py] contains the
    two-regime one of [solver_v3.py]: with parameters that for every day
    of the rules hold only a [bug_threshold] (the day's outlier threshold,
    when it has one) and a [bug_rate] (the rule's outlier rate, 0.45 by
    default), it gives the same result or exception on all arguments. *)
Theorem v5_bug_only_is_v3
        (rules : gmap Z SolverV2.Rule2) (outlier_thresholds : gmap Z num)
        (vd vm vr : pyval) :
  SolverV5.calculate (SolverV2.base <$> rules)
                     (SolverV3.bug_only rules outlier_thresholds) vd vm vr
  = SolverV3.calculate rules outlier_thresholds vd vm vr.
Proof.
  unfold SolverV5.calculate, SolverV3.calculate.
  destruct (py_int vd) as [day | ]; run; [|reflexivity].
  destruct (py_int vm) as [miles | ]; run; [|reflexivity].
  destruct (py_float vr) as [receipts | ]; run; [|reflexivity].
  unfold SolverV3.bug_only. rewrite lookup_fmap, map_lookup_imap.
  destruct (rules !! day) as [rule | ]; cbn [fmap option_fmap option_map mbind option_bind];
    [|reflexivity].
  cbn [default from_option id].
  set (dp := SolverV5.Build_DayParams _ _ _ _).
  assert (Hdetect : SolverV5.detect dp receipts
                    = if SolverV3.is_outlier outlier_thresholds day receipts
                      then SolverV5.Bug else SolverV5.Normal).
  { unfold SolverV5.detect, SolverV5.is_anomaly, SolverV5.is_bug,
      SolverV5.bug_limit, SolverV5.anomaly_limit, SolverV3.is_outlier.
    subst dp. cbn [SolverV5.bug_threshold SolverV5.anomaly_threshold default from_option id].
    rewrite py_gt_inf, andb_false_r. reflexivity. }
  rewrite Hdetect. unfold SolverV2.evaluate.
  change (SolverV5.mileage_reimbursement (SolverV2.base rule) miles)
    with (SolverV1.mileage_reimbursement (SolverV2.base rule) miles).
  destruct (SolverV1.mileage_reimbursement (SolverV2.base rule) miles) as [mileage | ];
    run; [|reflexivity].
  destruct (SolverV3.is_outlier outlier_thresholds day receipts);
    cbn [SolverV5.receipt_reimbursement SolverV5.low_receipt negb andb];
    subst dp; cbn [SolverV5.bug_rate default from_option id]; reflexivity.
Qed.

(** The long-trip branch of [solver_v1.py] rounds a [numpy.float64] too. *)
Example v1_long_trip_rounding :
  SolverV1.calculate (fun _ _ _ => Ok 1.115%float) Solution.rules
    (Solution.int 9) (Solution.int 100) (Solution.flt 50) = Ok (NFloat 1.12)
  /\ float_round2 1.115 = 1.11%float.
Proof. split; reflexivity. Qed.

Lemma v2_without_rates_is_v1_witness :
  is_Some (Solution.rules !! 3)
  /\ SolverV2.calculate ((fun rule => SolverV2.Build_Rule2 rule None) <$> Solution.rules)
       (Solution.int 3) (Solution.int 93) (Solution.flt 2500)
     = SolverV1.calculate Solution.failing_model Solution.rules
         (Solution.int 3) (Solution.int 93) (Solution.flt 2500).
Proof.
  split; [eexists; reflexivity|].
  apply (v2_without_rates_is_v1 Solution.failing_model Solution.rules _ _ _ 3);
    [reflexivity | left; eexists; reflexivity].
Defined.

End VariantsFacts.

(** * [run_solver] of [solver_v2.py] *)

Module SolverV2Facts.
Import Py PyFacts PyLists PyListsFacts SolverV2.

Section RunSolver.
Variable failing_empty : Z -> bool.
Variable mae : Z -> gmap Z Rule2 -> float.

Section OneDay.
Variables (day : Z) (rules : gmap Z Rule2) (rule : Rule2).
Hypothesis Hrule : rules !! day = Some rule.

(** The error of the calculator when the day's rate is [rate]. *)
Let score (rate : float) : float := mae day (<[day := set_rate rate rule]> rules).

Lemma try_rate_step (rs0 : gmap Z Rule2) (st : float * num) (rate : float) :
  (rs0 = rules \/ exists r0, rs0 = <[day := set_rate r0 rule]> rules) ->
  try_rate mae day (Some (rs0, st)) rate
  = Some (<[day := set_rate rate rule]> rules,
          if (score rate <? st.1)%float then (score rate, NFloat rate) else st).
Proof.
  intros Hrs. unfold try_rate. cbn [mbind option_bind].
  destruct Hrs as [-> | (r0 & ->)].
  - rewrite Hrule. reflexivity.
  - rewrite lookup_insert_eq. cbn [mbind option_bind].
    rewrite insert_insert_eq. reflexivity.
Qed.

Lemma search_fold (rs : list float) (rs0 : gmap Z Rule2) (st : float * num) :
  (rs0 = rules \/ exists r0, rs0 = <[day := set_rate r0 rule]> rules) ->
  exists st',
    foldl (try_rate mae day) (Some (rs0, st)) rs
    = Some (match last rs with
            | Some rate => <[day := set_rate rate rule]> rules
            | None => rs0
            end, st')
    /\ (forall t, (t <? st.1)%float = false -> (t <? st'.1)%float = false)
    /\ (forall rate, rate ∈ rs -> (score rate <? st'.1)%float = false)
    /\ (st' = st \/ exists rate, rate ∈ rs /\ st' = (score rate, NFloat rate)).
Proof.
  revert rs0 st. induction rs as [ | rate rs IH]; intros rs0 st Hrs; cbn [foldl].
  - exists st. split; [reflexivity|]. split; [auto|]. split; [|now left].
    intros rate Hin. inversion Hin.
  - rewrite (try_rate_step rs0 st rate Hrs).
    destruct (IH (<[day := set_rate rate rule]> rules)
                 (if (score rate <? st.1)%float then (score rate, NFloat rate) else st))
      as (st' & Hfold & Hmono & Hall & Hmem); [right; eauto|].
    exists st'. split.
    { rewrite Hfold. f_equal. f_equal. destruct rs as [ | rate' rs']; [reflexivity|].
      change (last (rate :: rate' :: rs')) with (last (rate' :: rs')).
      destruct (last (rate' :: rs')) eqn:Hlast; [reflexivity|].
      apply last_None in Hlast. discriminate. }
    destruct (score rate <? st.1)%float eqn:Hlt; cbn [fst] in *.
    + split; [|split].
      * intros t Ht. apply Hmono. eapply ltb_not_below; eassumption.
      * intros z Hz. apply elem_of_cons in Hz as [-> | Hz]; [|now apply Hall].
        apply Hmono, ltb_irrefl.
      * right. destruct Hmem as [-> | (z & Hz & ->)].
        -- exists rate. split; [apply elem_of_cons; now left | reflexivity].
        -- exists z. split; [apply elem_of_cons; now right | reflexivity].
    + split; [exact Hmono|]. split.
      * intros z Hz. apply elem_of_cons in Hz as [-> | Hz]; [|now apply Hall].
        now apply Hmono.
      * destruct Hmem as [-> | (z & Hz & ->)]; [now left | right].
        exists z. split; [apply elem_of_cons; now right | reflexivity].
Qed.

Lemma last_rates : last rates = Some 1%float.
Proof. vm_compute. reflexivity. Qed.

(** X9: the loop over the 101 rates of [run_solver] ([solver_v2.py], lines
    117-131; the same loop is in [solver_v3.py], lines 120-134).  When the
    day has a rule the loop raises no [KeyError]; because
    [current_rules.copy()] is shallow, it leaves the shared rules with the
    day's ['outlier_receipt_rate'] overwritten by the last rate tried, 1.0,
    and not by the best one; no rate tried has an error below [best_mae];
    and [best_rate] is either the initial 0 with [best_mae] still infinite,
    or a rate tried, with its error as [best_mae]. *)
Theorem search_rate_spec :
  exists best_mae best_rate,
    search_rate mae day rules
    = Some (<[day := set_rate 1 rule]> rules, (best_mae, best_rate))
    /\ (forall rate, rate ∈ rates ->
          (mae day (<[day := set_rate rate rule]> rules) <? best_mae)%float = false)
    /\ ((best_mae = infinity /\ best_rate = NInt 0)
        \/ exists rate, rate ∈ rates /\ best_rate = NFloat rate
                        /\ best_mae = mae day (<[day := set_rate rate rule]> rules)).
Proof.
  destruct (search_fold rates rules (infinity, NInt 0)) as (st' & Hfold & _ & Hall & Hmem);
    [now left|].
  rewrite last_rates in Hfold. destruct st' as [best_mae best_rate].
  exists best_mae, best_rate. split; [exact Hfold|]. split; [exact Hall|].
  destruct Hmem as [Heq | (rate & Hin & Heq)]; injection Heq as -> ->.
  - left. split; reflexivity.
  - right. exists rate. repeat split. exact Hin.
Qed.
End OneDay.

Lemma current_rules_lookup (day : Z) (rule : Rule2) :
  current_rules !! day = Some rule ->
  1 <= day <= 7 /\ outlier_receipt_rate rule = Some (NFloat 0.45).
Proof.
  unfold current_rules. rewrite lookup_fmap.
  destruct (Solution.rules !! day) as [rule0 | ] eqn:H0; [|discriminate].
  intros [= <-]. split; [|reflexivity].
  eapply SolutionFacts.rules_lookup_Some, H0.
Qed.

Lemma current_rules_is_Some (day : Z) : 1 <= day <= 7 -> is_Some (current_rules !! day).
Proof.
  intros Hd. unfold current_rules. rewrite lookup_fmap.
  destruct (SolutionFacts.rules_lookup_is_Some day Hd) as (rule & ->). eauto.
Qed.

(** What a run over the days [l] leaves, from rules that are still the
    table's on these days. *)
Lemma run_days (l : list Z) (rules : gmap Z Rule2) (final : gmap Z num) :
  NoDup l ->
  (forall d, d ∈ l -> 1 <= d <= 7 /\ rules !! d = current_rules !! d) ->
  exists rules' final',
    foldl (run_day failing_empty mae) (Some (rules, final)) l = Some (rules', final')
    /\ (forall d, d ∉ l -> rules' !! d = rules !! d /\ final' !! d = final !! d)
    /\ (forall d, d ∈ l ->
          if failing_empty d
          then rules' !! d = current_rules !! d /\ final' !! d = Some (NFloat 0.45)
          else rules' !! d = set_rate 1 <$> current_rules !! d
               /\ (final' !! d = Some (NInt 0)
                   \/ exists rate, rate ∈ rates /\ final' !! d = Some (NFloat rate))).
Proof.
  revert rules final. induction l as [ | day l IH]; intros rules final Hnd Hl; cbn [foldl].
  - exists rules, final. split; [reflexivity|]. split; [auto|].
    intros d Hd. inversion Hd.
  - apply NoDup_cons in Hnd as [Hday Hnd].
    destruct (Hl day) as [Hrange Hcur]; [apply elem_of_cons; now left|].
    destruct (current_rules_is_Some day Hrange) as (rule & Hrule).
    rewrite Hrule in Hcur.
    destruct (current_rules_lookup day rule Hrule) as [_ Hrate].
    unfold run_day at 2. cbn [mbind option_bind].
    destruct (failing_empty day) eqn:Hempty.
    + rewrite Hcur. cbn [mbind option_bind]. rewrite Hrate. cbn [mbind option_bind].
      destruct (IH rules (<[day := NFloat 0.45]> final) Hnd)
        as (rules' & final' & Hfold & Hframe & Hdays).
      { intros d Hd. apply Hl, elem_of_cons. now right. }
      exists rules', final'. split; [exact Hfold|]. split.
      * intros d Hd. apply not_elem_of_cons in Hd as [Hne Hd].
        destruct (Hframe d Hd) as [Hr Hf]. split; [exact Hr|].
        now rewrite Hf, lookup_insert_ne.
      * intros d Hd. apply elem_of_cons in Hd as [-> | Hd]; [|now apply Hdays].
        rewrite Hempty. destruct (Hframe day Hday) as [Hr Hf].
        rewrite Hr, Hf, Hcur, Hrule, lookup_insert_eq. now split.
    + destruct (search_fold day rules rule Hcur rates rules (infinity, NInt 0))
        as ([best_mae best_rate] & Hsearch & _ & _ & Hbest); [left; reflexivity|].
      rewrite last_rates in Hsearch. unfold search_rate. rewrite Hsearch.
      clear Hsearch. cbn [mbind option_bind].
      destruct (IH (<[day := set_rate 1 rule]> rules) (<[day := best_rate]> final) Hnd)
        as (rules' & final' & Hfold & Hframe & Hdays).
      { intros d Hd. destruct (Hl d) as [Hdr Hdc]; [apply elem_of_cons; now right|].
        split; [exact Hdr|]. rewrite lookup_insert_ne; [exact Hdc|].
        intros ->. contradiction. }
      exists rules', final'. split; [exact Hfold|]. split.
      * intros d Hd. apply not_elem_of_cons in Hd as [Hne Hd].
        destruct (Hframe d Hd) as [Hr Hf].
        now rewrite Hr, Hf, !lookup_insert_ne.
      * intros d Hd. apply elem_of_cons in Hd as [-> | Hd]; [|now apply Hdays].
        rewrite Hempty. destruct (Hframe day Hday) as [Hr Hf].
        rewrite Hr, Hf, Hrule, !lookup_insert_eq. split; [reflexivity|].
        destruct Hbest as [Heq | (rate & Hin & Heq)]; injection Heq as _ ->.
        -- left. reflexivity.
        -- right. exists rate. split; [exact Hin | reflexivity].
Qed.

(** X10: [run_solver] of [solver_v2.py] (lines 102-139) runs through the
    seven days without a [KeyError].  Days outside 1..7 get no entry.  A
    day without failing outliers keeps its rule and records the rate 0.45;
    a day with failing outliers records the initial 0 or one of the rates
    tried, and its rule in [current_rules] is left with the rate 1.0. *)
Theorem run_solver_spec :
  exists rules final_outlier_rates,
    run_solver failing_empty mae = Some (rules, final_outlier_rates)
    /\ (forall day, ~ 1 <= day <= 7 ->
          rules !! day = None /\ final_outlier_rates !! day = None)
    /\ (forall day, 1 <= day <= 7 ->
          if failing_empty day
          then rules !! day = current_rules !! day
               /\ final_outlier_rates !! day = Some (NFloat 0.45)
          else rules !! day = set_rate 1 <$> current_rules !! day
               /\ (final_outlier_rates !! day = Some (NInt 0)
                   \/ exists rate, rate ∈ rates
                                  /\ final_outlier_rates !! day = Some (NFloat rate))).
Proof.
  assert (Hrange : forall d, d ∈ py_range 1 8 1 <-> 1 <= d <= 7).
  { intros d. rewrite elem_of_py_range by lia. split.
    - intros (i & Hi & -> & Hlt). lia.
    - intros Hd. exists (d - 1). lia. }
  destruct (run_days (py_range 1 8 1) current_rules ∅)
    as (rules & final & Hfold & Hframe & Hdays).
  - apply (bool_decide_unpack _). vm_compute. exact I.
  - intros d Hd. apply Hrange in Hd. now split.
  - exists rules, final. split; [exact Hfold|]. split.
    + intros day Hday. destruct (Hframe day) as [Hr Hf]; [now rewrite Hrange|].
      rewrite Hr, Hf, lookup_empty. split; [|reflexivity].
      destruct (current_rules !! day) as [rule | ] eqn:Hrule; [|reflexivity].
      apply current_rules_lookup in Hrule as [Hrule _]. contradiction.
    + intros day Hday. apply Hdays, Hrange, Hday.
Qed.
End RunSolver.
Lemma search_rate_spec_witness :
  exists rule,
    current_rules !! 3 = Some rule
    /\ exists best_mae best_rate,
         search_rate (fun _ _ => 0%float) 3 current_rules
         = Some (<[3 := set_rate 1 rule]> current_rules, (best_mae, best_rate)).
Proof.
  eexists. split; [reflexivity|].
  destruct (search_rate_spec (fun _ _ => 0%float) 3 current_rules _ eq_refl)
    as (best_mae & best_rate & Hsearch & _).
  exists best_mae, best_rate. exact Hsearch.
Defined.

End SolverV2Facts.

(** * [run_solver] of [solver_v5.py] *)

Module SolverV5SearchFacts.
Import Py PyFacts PyMore PyLists PyListsFacts SolverV5 SolverV5Search.

Lemma int_to_float_exact (z : Z) :
  Z.abs z < 2 ^ 53 -> value (NFloat (int_to_float z)) = Some (Fin (z * scale)).
Proof.
  intros Hz. destruct (float_of_int_exact z Hz) as (f & Hf & Hv).
  unfold float_of_int in Hf. unfold int_to_float.
  destruct (binary_normalize prec emax z 0 false); try discriminate;
    injection Hf as <-; exact Hv.
Qed.

Section RunSolver.
Variable day_empty : Z -> bool.
Variable anomalies_empty : Z -> Z -> Z -> bool.
Variable bugs_empty : Z -> Z -> bool.
Variable mae_anomalies : Z -> Z -> Z -> DayParams -> float.
Variable mae_bugs : Z -> Z -> DayParams -> float.
Variable mae_day : Z -> DayParams -> float.

Abbreviation candidates :=
  (candidates anomalies_empty bugs_empty mae_anomalies mae_bugs).
Abbreviation best_day_params :=
  (best_day_params anomalies_empty bugs_empty mae_anomalies mae_bugs mae_day).
Abbreviation run_solver :=
  (run_solver day_empty anomalies_empty bugs_empty mae_anomalies mae_bugs mae_day).

Abbreviation best_anomaly_rate := (best_anomaly_rate anomalies_empty mae_anomalies).
Abbreviation best_bug_rate := (best_bug_rate bugs_empty mae_bugs).

Lemma best_rate_of (score : num -> float) (search : list float) :
  (best_of score (NInt 0) (NFloat <$> search)).2 = NInt 0
  \/ exists rate, rate ∈ search
                  /\ (best_of score (NInt 0) (NFloat <$> search)).2 = NFloat rate.
Proof.
  destruct (best_of_spec score (NInt 0) (NFloat <$> search)) as [_ [-> | [Hin _]]];
    [now left | right].
  apply list_elem_of_fmap in Hin as (rate & Heq & Hin). eauto.
Qed.

Lemma candidates_inv (day : Z) (dp : DayParams) :
  dp ∈ candidates day ->
  exists a b,
    dp = current_params a b (best_anomaly_rate day a b) (best_bug_rate day a b)
    /\ 800 <= a <= 2400 /\ a + 200 <= b <= 2800
    /\ (a - 800) mod 200 = 0 /\ (b - a) mod 200 = 0.
Proof.
  unfold SolverV5Search.candidates. intros Hin.
  apply list_elem_of_bind in Hin as (a & Hin & Ha).
  apply list_elem_of_bind in Hin as (b & Hin & Hb).
  apply list_elem_of_singleton in Hin as ->.
  unfold anomaly_threshold_search in Ha. unfold bug_threshold_search in Hb.
  apply elem_of_py_range in Ha as (i & Hi & -> & Hlt); [|lia].
  apply elem_of_py_range in Hb as (j & Hj & -> & Hlt'); [|lia].
  eexists _, _. split; [reflexivity|].
  replace (800 + i * 200 - 800) with (i * 200) by lia.
  replace (800 + i * 200 + 200 + j * 200 - (800 + i * 200)) with ((j + 1) * 200) by lia.
  rewrite !Z.mod_mul by lia. lia.
Qed.

Lemma candidates_intro (day a b : Z) :
  800 <= a <= 2400 -> a + 200 <= b <= 2800 ->
  (a - 800) mod 200 = 0 -> (b - a) mod 200 = 0 ->
  current_params a b (best_anomaly_rate day a b) (best_bug_rate day a b)
  ∈ candidates day.
Proof.
  intros Ha Hb Hma Hmb. unfold SolverV5Search.candidates.
  apply Z.mod_divide in Hma as (i & Hi); [|lia].
  apply Z.mod_divide in Hmb as (j & Hj); [|lia].
  apply list_elem_of_bind. exists a. split.
  - apply list_elem_of_bind. exists b. split; [apply list_elem_of_singleton; reflexivity|].
    unfold bug_threshold_search. apply elem_of_py_range; [lia|].
    exists (j - 1). lia.
  - unfold anomaly_threshold_search. apply elem_of_py_range; [lia|].
    exists i. lia.
Qed.

(** Parameters with integer thresholds [800 <= a], [a + 200 <= b <= 2800]
    give three regimes that all occur. *)
Lemma grid_regimes (dp : DayParams) (a b : Z) :
  anomaly_threshold dp = Some (NInt a) -> bug_threshold dp = Some (NInt b) ->
  800 <= a -> a + 200 <= b <= 2800 ->
  py_lt (anomaly_limit dp) (bug_limit dp) = true
  /\ detect dp (int_to_float a) = Normal
  /\ detect dp (int_to_float b) = Anomaly
  /\ detect dp (int_to_float (b + 1)) = Bug.
Proof.
  intros Ha Hb Hlo Hgap. pose proof scale_pos as Hs.
  assert (H53 : 2 ^ 53 = 9007199254740992) by reflexivity.
  pose proof (int_to_float_exact a ltac:(lia)) as Hva.
  pose proof (int_to_float_exact b ltac:(lia)) as Hvb.
  pose proof (int_to_float_exact (b + 1) ltac:(lia)) as Hvb1.
  unfold detect, is_anomaly, is_bug, anomaly_limit, bug_limit, py_gt, py_lt.
  rewrite Ha, Hb. cbn [default from_option id].
  rewrite !compare_value, Hva, Hvb, Hvb1. cbn [value compare_values ereal_compare].
  repeat match goal with
         | |- context [?x ?= ?y] => destruct (Z.compare_spec x y)
         end; cbn [negb andb]; try nia; repeat split.
Qed.

(** X11: the parameters that the two threshold loops of [run_solver]
    ([solver_v5.py], lines 98-137) try for a day are exactly those with an
    anomaly threshold among 800, 1000, ..., 2400 and a bug threshold among
    the anomaly threshold plus 200, plus 400, ..., up to 2800, each with the
    two rates found best for this pair. *)
Theorem candidates_grid (day : Z) (dp : DayParams) :
  dp ∈ candidates day <->
  exists a b,
    dp = current_params a b (best_anomaly_rate day a b) (best_bug_rate day a b)
    /\ 800 <= a <= 2400 /\ a + 200 <= b <= 2800
    /\ (a - 800) mod 200 = 0 /\ (b - a) mod 200 = 0.
Proof.
  split; [apply candidates_inv|].
  intros (a & b & -> & Ha & Hb & Hma & Hmb). now apply candidates_intro.
Qed.

(** X12: the rate found best by an inner loop of [run_solver]
    ([solver_v5.py], lines 107-131) is the initial 0 or one of the rates of
    the loop's list, and it is the initial 0 when the frame of the
    anomalies, or of the bugs, is empty. *)
Theorem candidate_rates (day a b : Z) :
  (best_anomaly_rate day a b = NInt 0
   \/ exists rate, rate ∈ anomaly_rate_search /\ best_anomaly_rate day a b = NFloat rate)
  /\ (best_bug_rate day a b = NInt 0
      \/ exists rate, rate ∈ bug_rate_search /\ best_bug_rate day a b = NFloat rate)
  /\ (anomalies_empty day a b = true -> best_anomaly_rate day a b = NInt 0)
  /\ (bugs_empty day b = true -> best_bug_rate day a b = NInt 0).
Proof.
  unfold SolverV5Search.best_anomaly_rate, SolverV5Search.best_bug_rate.
  split; [|split; [|split]].
  - destruct (anomalies_empty day a b); [now left | apply best_rate_of].
  - destruct (bugs_empty day b); [now left | apply best_rate_of].
  - now intros ->.
  - now intros ->.
Qed.

Lemma fill_days (l : list Z) (final_params : gmap Z DayParams) (day : Z) :
  foldl (fun final_params day =>
           if day_empty day then final_params
           else <[day := best_day_params day]> final_params) final_params l !! day
  = if bool_decide (day ∈ l) && negb (day_empty day)
    then Some (best_day_params day) else final_params !! day.
Proof.
  revert final_params. induction l as [ | d l IH]; intros final_params; cbn [foldl].
  - rewrite bool_decide_eq_false_2; [reflexivity | apply not_elem_of_nil].
  - rewrite IH. destruct (day_empty day) eqn:Hempty; cbn [negb].
    + rewrite !andb_false_r. destruct (decide (day = d)) as [<- | Hne].
      * now rewrite Hempty.
      * destruct (day_empty d); [reflexivity|]. now apply lookup_insert_ne.
    + rewrite !andb_true_r. destruct (decide (day ∈ l)) as [Hin | Hnin].
      * rewrite !bool_decide_eq_true_2;
          [reflexivity | apply elem_of_cons; now right | exact Hin].
      * rewrite (bool_decide_eq_false_2 (day ∈ l)) by exact Hnin.
        destruct (decide (day = d)) as [<- | Hne].
        -- rewrite bool_decide_eq_true_2 by (apply elem_of_cons; now left).
           rewrite Hempty. apply lookup_insert_eq.
        -- rewrite bool_decide_eq_false_2
             by (intros [? | ?]%elem_of_cons; contradiction).
           destruct (day_empty d); [reflexivity|]. now apply lookup_insert_ne.
Qed.

(** X13: [final_params] of [run_solver] ([solver_v5.py], lines 86-144) has
    an entry for a day exactly when the day is one of 1..7 and has cases,
    and the entry is then the day's [best_day_params]. *)
Theorem run_solver_lookup (day : Z) :
  run_solver !! day
  = if bool_decide (1 <= day <= 7) && negb (day_empty day)
    then Some (best_day_params day) else None.
Proof.
  unfold SolverV5Search.run_solver. rewrite fill_days, lookup_empty.
  assert (Hrange : day ∈ py_range 1 8 1 <-> 1 <= day <= 7).
  { rewrite elem_of_py_range by lia. split.
    - intros (i & Hi & -> & Hlt). lia.
    - intros Hd. exists (day - 1). lia. }
  now rewrite (bool_decide_ext _ _ Hrange).
Qed.

(** X14: [best_day_params] (lines 95-96 and 139-141) is either still the
    empty dict, and then no parameters tried have an error below infinity,
    or it is one of the parameters tried, and then no parameters tried
    have an error below its own. *)
Theorem best_day_params_minimal (day : Z) :
  (best_day_params day = no_params
   /\ forall dp, dp ∈ candidates day -> (mae_day day dp <? infinity)%float = false)
  \/ (best_day_params day ∈ candidates day
      /\ forall dp, dp ∈ candidates day ->
           (mae_day day dp <? mae_day day (best_day_params day))%float = false).
Proof.
  unfold SolverV5Search.best_day_params.
  destruct (best_of_spec (mae_day day) no_params (candidates day)) as [Hall Hmem].
  destruct Hmem as [Heq | [Hin Heq]].
  - rewrite Heq in *. cbn [fst snd] in *. left. now split.
  - rewrite Heq in Hall. right. now split.
Qed.

(** X15: every entry of the [final_params] that [run_solver] of
    [solver_v5.py] returns is the empty dict or has integer thresholds with
    the anomaly limit below the bug limit, so that the three regimes of the
    calculator all occur: receipts equal to the anomaly threshold are
    normal, receipts equal to the bug threshold are anomalous, and receipts
    one above the bug threshold are bugs. *)
Theorem final_params_regimes (day : Z) (dp : DayParams) :
  run_solver !! day = Some dp ->
  dp = no_params
  \/ exists a b,
       anomaly_threshold dp = Some (NInt a) /\ bug_threshold dp = Some (NInt b)
       /\ py_lt (anomaly_limit dp) (bug_limit dp) = true
       /\ detect dp (int_to_float a) = Normal
       /\ detect dp (int_to_float b) = Anomaly
       /\ detect dp (int_to_float (b + 1)) = Bug.
Proof.
  unfold SolverV5Search.run_solver. rewrite fill_days, lookup_empty.
  destruct (_ && _); [|discriminate]. intros [= <-].
  unfold SolverV5Search.best_day_params.
  destruct (best_of_spec (mae_day day) no_params (candidates day)) as [_ [-> | [Hin _]]];
    [now left | right].
  apply candidates_inv in Hin as (a & b & -> & Ha & Hb & _).
  exists a, b. split; [reflexivity|]. split; [reflexivity|].
  apply grid_regimes; [reflexivity | reflexivity | lia | lia].
Qed.
End RunSolver.

Lemma final_params_regimes_witness :
  let run :=
    run_solver (fun _ => false) (fun _ _ _ => true) (fun _ _ => true)
               (fun _ _ _ _ => 0%float) (fun _ _ _ => 0%float) (fun _ _ => 0%float) in
  let dp := current_params 800 1000 (NInt 0) (NInt 0) in
  run !! 1 = Some dp
  /\ (dp = no_params
      \/ exists a b,
           anomaly_threshold dp = Some (NInt a) /\ bug_threshold dp = Some (NInt b)
           /\ py_lt (anomaly_limit dp) (bug_limit dp) = true
           /\ detect dp (int_to_float a) = Normal
           /\ detect dp (int_to_float b) = Anomaly
           /\ detect dp (int_to_float (b + 1)) = Bug).
Proof.
  split; [vm_compute; reflexivity|].
  apply (final_params_regimes (fun _ => false) (fun _ _ _ => true) (fun _ _ => true)
           (fun _ _ _ _ => 0%float) (fun _ _ _ => 0%float) (fun _ _ => 0%float) 1).
  vm_compute. reflexivity.
Defined.

End SolverV5SearchFacts.
